(** * tools/purge_executions.py: retention purge of st2 executions

    A shallow embedding of the purge script and the properties of its
    eligibility filter, per-candidate delete step and run statistics.

    Conventions of the embedding
    - a [datetime] is the instant it denotes, an integer number of
      microseconds ([Z]); Python's unbounded [int] is [Z];
    - Python strings are [string];
    - the script's effects (the store behind the persistence classes, the
      module global [DELETED_COUNT], the log) are threaded through a state
      and exception monad [M]; a raised exception keeps the state reached so
      far, as in Python. *)

From Stdlib Require Import ZArith List String Bool Lia.
Import ListNotations.
Local Open Scope string_scope.
Local Open Scope list_scope.
Local Open Scope Z_scope.

(** ** Python values handed to [purge_executions]

    [timestamp] and [action_ref] are keyword arguments that default to
    [None]; the script tests both for truthiness. *)

Inductive PyVal : Type :=
| PyNone
| PyBool (b : bool)
| PyInt (n : Z)
| PyStr (s : string)
| PyDatetime (t : Z).

(** Python truth value: [None], [False], [0] and [''] are falsy; a
    [datetime] is always truthy. *)
Definition truthy (v : PyVal) : bool :=
  match v with
  | PyNone => false
  | PyBool b => b
  | PyInt n => negb (n =? 0)
  | PyStr s => negb (s =? "")%string
  | PyDatetime _ => true
  end.

(** Python [==] on these values ([bool] is a subclass of [int]). *)
Definition py_eq (a b : PyVal) : bool :=
  match a, b with
  | PyNone, PyNone => true
  | PyBool x, PyBool y => Bool.eqb x y
  | PyBool x, PyInt n | PyInt n, PyBool x => n =? (if x then 1 else 0)
  | PyInt n, PyInt m => n =? m
  | PyStr s, PyStr t => (s =? t)%string
  | PyDatetime s, PyDatetime t => s =? t
  | _, _ => false
  end.

(** ** Records of the store *)

(** The [liveaction] dict embedded in an execution: the script indexes
    ['action'] and reads ['id'] with [.get('id', None)], so the id may be
    missing or null ([None]) or empty. *)
Record LiveActionDict : Type := {
  action : string;
  liveaction_id : option string
}.

Record ActionExecutionDB : Type := {
  id : string;
  status : string;
  start_timestamp : Z;
  end_timestamp : option Z;
  liveaction : LiveActionDict
}.

Record LiveActionDB : Type := {
  la_id : string;
  la_action : string;
  la_status : string
}.

(** Modelled from the spec: the persistent store behind
    [st2common.persistence] (not among the sources): two collections with
    filter-by-field query and delete-by-key, and the deletes the store
    rejects (simulated store rejection), given per record id. *)
Record Store : Type := {
  executions : list ActionExecutionDB;
  liveactions : list LiveActionDB;
  execution_delete_rejected : string -> bool;
  liveaction_delete_rejected : string -> bool
}.

(** ** Log records and persistence calls *)

Inductive LogRecord : Type :=
| Error_InvalidLiveActionId (execution_db : ActionExecutionDB)
| Exception_LiveActionNotFound (liveaction_id : option string)
| Exception_DeletingExecution (execution_db : ActionExecutionDB)
| Exception_ZombieLiveAction (liveaction_db : LiveActionDB)
| Error_SpecifyValidTimestamp
| Info_PurgingOlderThan (timestamp : Z)
| Info_TotalToDelete (n : Z)
| Info_TotalDeleted (n : Z)
| Error_SupplyTimestamp.

Inductive Call : Type :=
| Call_common_setup
| Call_common_teardown
| Call_ActionExecution_query (end_timestamp__lt : Z)
| Call_LiveAction_get_by_id (liveaction_id : option string)
| Call_ActionExecution_delete (execution_id : string)
| Call_LiveAction_delete (liveaction_id : string).

(** ** Process state *)

Record World : Type := {
  store : Store;
  DELETED_COUNT : Z;
  LOG : list LogRecord;
  calls : list Call
}.

Definition set_store (s : Store) (w : World) : World :=
  {| store := s; DELETED_COUNT := DELETED_COUNT w; LOG := LOG w; calls := calls w |}.

Definition set_DELETED_COUNT (c : Z) (w : World) : World :=
  {| store := store w; DELETED_COUNT := c; LOG := LOG w; calls := calls w |}.

Definition add_log (r : LogRecord) (w : World) : World :=
  {| store := store w; DELETED_COUNT := DELETED_COUNT w; LOG := LOG w ++ [r]; calls := calls w |}.

Definition add_call (c : Call) (w : World) : World :=
  {| store := store w; DELETED_COUNT := DELETED_COUNT w; LOG := LOG w; calls := calls w ++ [c] |}.

(** A fresh interpreter: the module is loaded, [DELETED_COUNT = 0]. *)
Definition module_loaded (s : Store) : World :=
  {| store := s; DELETED_COUNT := 0; LOG := []; calls := [] |}.

(** ** The state and exception monad *)

Inductive Exc : Type :=
| ValueError
| AttributeError
| StoreError.

Inductive Result (A : Type) : Type :=
| Ok (a : A)
| Raise (e : Exc).
Arguments Ok {A} a.
Arguments Raise {A} e.

Definition M (A : Type) : Type := World -> Result A * World.

Definition ret {A} (a : A) : M A := fun w => (Ok a, w).

Definition raise {A} (e : Exc) : M A := fun w => (Raise e, w).

Definition bind {A B} (m : M A) (k : A -> M B) : M B :=
  fun w =>
    match m w with
    | (Ok a, w') => k a w'
    | (Raise e, w') => (Raise e, w')
    end.

(** [try: body / except: handler / else: orelse]: the handler catches what
    [body] raises, not what [orelse] raises. *)
Definition try_except_else {A B} (body : M A) (handler : Exc -> M B) (orelse : A -> M B) : M B :=
  fun w =>
    match body w with
    | (Ok a, w') => orelse a w'
    | (Raise e, w') => handler e w'
    end.

Definition try_except {A} (body : M A) (handler : Exc -> M A) : M A :=
  try_except_else body handler ret.

Declare Scope py_scope.
Delimit Scope py_scope with py.
Notation "x <- m ;; k" := (bind m (fun x => k))
  (at level 61, m at next level, right associativity) : py_scope.
Notation "m ;; k" := (bind m (fun _ => k))
  (at level 61, right associativity) : py_scope.
Local Open Scope py_scope.

Definition get_world : M World := fun w => (Ok w, w).
Definition modify (f : World -> World) : M unit := fun w => (Ok tt, f w).

Definition LOG_error (r : LogRecord) : M unit := modify (add_log r).
Definition LOG_info (r : LogRecord) : M unit := modify (add_log r).
Definition LOG_exception (r : LogRecord) : M unit := modify (add_log r).

(** [for x in xs: body x]. *)
Fixpoint for_each {A} (xs : list A) (body : A -> M unit) : M unit :=
  match xs with
  | [] => ret tt
  | x :: xs' => body x ;; for_each xs' body
  end.

(** ** Constants of [st2common.constants.action] *)

(** Modelled from the spec: the live-action status names of
    [st2common.constants.action] (not among the sources). *)
Definition LIVEACTION_STATUS_RUNNING : string := "running".
Definition LIVEACTION_STATUS_SCHEDULED : string := "scheduled".
Definition LIVEACTION_STATUS_REQUESTED : string := "requested".
Definition LIVEACTION_STATUS_CANCELING : string := "canceling".
Definition LIVEACTION_STATUS_DELAYED : string := "delayed".

Definition IN_PROGRESS_STATES : list string :=
  [LIVEACTION_STATUS_RUNNING;
   LIVEACTION_STATUS_SCHEDULED;
   LIVEACTION_STATUS_REQUESTED;
   LIVEACTION_STATUS_CANCELING;
   LIVEACTION_STATUS_DELAYED].

(** Python [x in xs] on a list of strings. *)
Fixpoint py_in (x : string) (xs : list string) : bool :=
  match xs with
  | [] => false
  | y :: ys => (x =? y)%string || py_in x ys
  end.

(** ** The persistence classes *)

(** Modelled from the spec: [st2common.util.isotime.parse] (not among the
    sources) applied to a [datetime]: the same instant. *)
Definition isotime_parse (timestamp : Z) : Z := timestamp.

Module ActionExecution.

Definition end_timestamp__lt (t : Z) (execution_db : ActionExecutionDB) : bool :=
  match end_timestamp execution_db with
  | Some e => e <? t
  | None => false
  end.

(** Modelled from the spec: [ActionExecution.query(end_timestamp__lt=t)]
    (not among the sources): the stored executions whose end timestamp is
    set and strictly before [t]. This store always answers; [Script] below
    takes the query as it comes, an unreachable store included. *)
Definition query (t : Z) : M (list ActionExecutionDB) :=
  modify (add_call (Call_ActionExecution_query t)) ;;
  w <- get_world ;;
  ret (filter (end_timestamp__lt t) (executions (store w))).

Definition remove (i : string) (s : Store) : Store :=
  {| executions := filter (fun e => negb (id e =? i)%string) (executions s);
     liveactions := liveactions s;
     execution_delete_rejected := execution_delete_rejected s;
     liveaction_delete_rejected := liveaction_delete_rejected s |}.

(** Modelled from the spec: [ActionExecution.delete(execution_db)] (not
    among the sources): delete by key, raising when the store rejects. *)
Definition delete (execution_db : ActionExecutionDB) : M unit :=
  modify (add_call (Call_ActionExecution_delete (id execution_db))) ;;
  w <- get_world ;;
  if execution_delete_rejected (store w) (id execution_db)
  then raise StoreError
  else modify (set_store (remove (id execution_db) (store w))).

End ActionExecution.

Module LiveAction.

(** Modelled from the spec: [LiveAction.get_by_id(id)] (not among the
    sources): the live action stored under that id; raises when the id is
    absent or empty, or no such record exists. *)
Definition get_by_id (liveaction_id : option string) : M LiveActionDB :=
  modify (add_call (Call_LiveAction_get_by_id liveaction_id)) ;;
  w <- get_world ;;
  match liveaction_id with
  | None => raise ValueError
  | Some i =>
      if (i =? "")%string then raise ValueError
      else match find (fun l => (la_id l =? i)%string) (liveactions (store w)) with
           | Some l => ret l
           | None => raise ValueError
           end
  end.

Definition remove (i : string) (s : Store) : Store :=
  {| executions := executions s;
     liveactions := filter (fun l => negb (la_id l =? i)%string) (liveactions s);
     execution_delete_rejected := execution_delete_rejected s;
     liveaction_delete_rejected := liveaction_delete_rejected s |}.

(** Modelled from the spec: [LiveAction.delete(liveaction_db)] (not among
    the sources): delete by key, raising when the store rejects. *)
Definition delete (liveaction_db : LiveActionDB) : M unit :=
  modify (add_call (Call_LiveAction_delete (la_id liveaction_db))) ;;
  w <- get_world ;;
  if liveaction_delete_rejected (store w) (la_id liveaction_db)
  then raise StoreError
  else modify (set_store (remove (la_id liveaction_db) (store w))).

End LiveAction.

(** ** The script *)

(** [not liveaction_id] for the value of [liveaction.get('id', None)]. *)
Definition id_falsy (liveaction_id : option string) : bool :=
  match liveaction_id with
  | None => true
  | Some i => (i =? "")%string
  end.

Definition _purge_models (execution_db : ActionExecutionDB) : M unit :=
  let liveaction_id := liveaction_id (liveaction execution_db) in
  (if id_falsy liveaction_id
   then LOG_error (Error_InvalidLiveActionId execution_db)
   else ret tt) ;;
  liveaction_db <-
    try_except_else (LiveAction.get_by_id liveaction_id)
      (fun _ => LOG_exception (Exception_LiveActionNotFound liveaction_id) ;;
                ret None)
      (fun l => modify (fun w => set_DELETED_COUNT (DELETED_COUNT w + 1) w) ;;
                ret (Some l)) ;;
  try_except_else (ActionExecution.delete execution_db)
    (fun _ => LOG_exception (Exception_DeletingExecution execution_db))
    (fun _ =>
       match liveaction_db with
       | Some l =>
           try_except (LiveAction.delete l)
             (fun _ => LOG_exception (Exception_ZombieLiveAction l))
       | None => ret tt
       end).

Definition _should_delete (execution_db : ActionExecutionDB) (action_ref : PyVal)
    (timestamp : Z) : bool :=
  if py_in (status execution_db) IN_PROGRESS_STATES then false
  else if negb (py_eq action_ref (PyStr ""))
  then py_eq (PyStr (action (liveaction execution_db))) action_ref
       && (start_timestamp execution_db <? timestamp)
  else start_timestamp execution_db <? timestamp.

(** The eligibility filter of [purge_executions]: the store query and the
    list comprehension over [_should_delete]. *)
Definition selectCandidates (timestamp : Z) (action_ref : PyVal) : M (list ActionExecutionDB) :=
  executions <- ActionExecution.query (isotime_parse timestamp) ;;
  ret (filter (fun execution => _should_delete execution action_ref timestamp) executions).

(** [timestamp.strftime(...)]: only a [datetime] has the method. *)
Definition strftime (timestamp : PyVal) : M Z :=
  match timestamp with
  | PyDatetime t => ret t
  | _ => raise AttributeError
  end.

(** [if not action_ref: action_ref = '']. *)
Definition default_action_ref (action_ref : PyVal) : PyVal :=
  if negb (truthy action_ref) then PyStr "" else action_ref.

Definition purge_executions (timestamp action_ref : PyVal) : M unit :=
  if negb (truthy timestamp)
  then LOG_error Error_SpecifyValidTimestamp
  else
    let action_ref := default_action_ref action_ref in
    t <- strftime timestamp ;;
    LOG_info (Info_PurgingOlderThan t) ;;
    executions_to_delete <- selectCandidates t action_ref ;;
    LOG_info (Info_TotalToDelete (Z.of_nat (List.length executions_to_delete))) ;;
    for_each executions_to_delete _purge_models ;;
    w <- get_world ;;
    LOG_info (Info_TotalDeleted (DELETED_COUNT w)).

(** ** The entry point *)

(** [cfg.CONF] after [_register_cli_opts]: [timestamp] is a string option
    that defaults to [None], [action_ref] one that defaults to ['']. *)
Record Config : Type := {
  CONF_timestamp : option string;
  CONF_action_ref : string
}.

Definition CONF_value (o : option string) : PyVal :=
  match o with
  | None => PyNone
  | Some s => PyStr s
  end.

Section Main.

(** [datetime.strptime(timestamp, '%Y-%m-%dT%H:%M:%S.%fZ')] made
    timezone-aware: the instant, or [None] where Python raises
    [ValueError] on a string that is not in that format. *)
Variable strptime : string -> option Z.

(** [main] where the registration of the options and [common_setup]
    succeed: the call to [common_setup] is recorded, then the script proper
    starts. [Script.main] below takes both calls as they come. *)
Definition main (CONF : Config) : M (option Z) :=
  modify (add_call Call_common_setup) ;;
  let timestamp := CONF_timestamp CONF in
  let action_ref := CONF_action_ref CONF in
  if negb (truthy (CONF_value timestamp))
  then LOG_error Error_SupplyTimestamp ;; ret (Some 1)
  else
    timestamp <- match timestamp with
                 | Some s => match strptime s with
                             | Some t => ret (PyDatetime t)
                             | None => raise ValueError
                             end
                 | None => raise ValueError
                 end ;;
    purge_executions timestamp (PyStr action_ref) ;;
    modify (add_call Call_common_teardown) ;;
    ret None.

End Main.

(** [sys.exit(main())]: the exit status of the process. *)
Definition exit_status (r : Result (option Z)) : Z :=
  match r with
  | Ok None => 0
  | Ok (Some n) => n
  | Raise _ => 1
  end.

(** ** Observations on a run *)

(** The candidates a selection returns (none when it raises). *)
Definition returned {A} (r : Result (list A) * World) : list A :=
  match fst r with
  | Ok l => l
  | Raise _ => []
  end.

Definition is_query_or_delete (c : Call) : bool :=
  match c with
  | Call_ActionExecution_query _
  | Call_ActionExecution_delete _
  | Call_LiveAction_delete _ => true
  | _ => false
  end.

Definition is_zombie (r : LogRecord) : bool :=
  match r with
  | Exception_ZombieLiveAction _ => true
  | _ => false
  end.

(** The ids of the executions whose delete was attempted, in call order. *)
Fixpoint execution_deletes (cs : list Call) : list string :=
  match cs with
  | [] => []
  | Call_ActionExecution_delete i :: cs' => i :: execution_deletes cs'
  | _ :: cs' => execution_deletes cs'
  end.

(** The ids of the live actions whose delete was attempted, in call order. *)
Fixpoint liveaction_deletes (cs : list Call) : list string :=
  match cs with
  | [] => []
  | Call_LiveAction_delete i :: cs' => i :: liveaction_deletes cs'
  | _ :: cs' => liveaction_deletes cs'
  end.

(** A terminal status is any status outside the in-progress set. *)
Definition terminal (execution_db : ActionExecutionDB) : Prop :=
  ~ In (status execution_db) IN_PROGRESS_STATES.

Definition end_before (execution_db : ActionExecutionDB) (cutoff : Z) : Prop :=
  exists e, end_timestamp execution_db = Some e /\ e < cutoff.

(** The child a candidate resolves to: what [LiveAction.get_by_id] returns
    for the embedded id, [None] where it raises. *)
Definition resolved_child (execution_db : ActionExecutionDB) (s : Store) : option LiveActionDB :=
  match liveaction_id (liveaction execution_db) with
  | None => None
  | Some i =>
      if (i =? "")%string then None
      else find (fun l => (la_id l =? i)%string) (liveactions s)
  end.

(** The candidates a run of [purge_executions] selects. *)
Definition candidates (timestamp : Z) (action_ref : PyVal) (w : World) : list ActionExecutionDB :=
  returned (selectCandidates timestamp (default_action_ref action_ref) w).

(** The summary lines a run reports: [(to delete, deleted)] counts. *)
Fixpoint reported (log : list LogRecord) : list (string * Z) :=
  match log with
  | [] => []
  | Info_TotalToDelete n :: log' => ("to delete", n) :: reported log'
  | Info_TotalDeleted n :: log' => ("deleted", n) :: reported log'
  | _ :: log' => reported log'
  end.

(** The world with [d] added to the module counter. *)
Definition shift_count (d : Z) (w : World) : World :=
  set_DELETED_COUNT (DELETED_COUNT w + d) w.

(** ** Example stores *)

Definition accept_all : string -> bool := fun _ => false.
Definition reject (i : string) : string -> bool := fun j => (j =? i)%string.

(** P1: terminal, ended at 100, action "a", child C1. *)
Definition P1 : ActionExecutionDB :=
  {| id := "p1"; status := "succeeded"; start_timestamp := 90; end_timestamp := Some 100;
     liveaction := {| action := "a"; liveaction_id := Some "c1" |} |}.

Definition C1 : LiveActionDB :=
  {| la_id := "c1"; la_action := "a"; la_status := "succeeded" |}.

(** P2: terminal, ended at 100, action "core.local", no child reference. *)
Definition P2 : ActionExecutionDB :=
  {| id := "p2"; status := "failed"; start_timestamp := 95; end_timestamp := Some 100;
     liveaction := {| action := "core.local"; liveaction_id := None |} |}.

(** P3: still running, with old timestamps. *)
Definition P3 : ActionExecutionDB :=
  {| id := "p3"; status := "running"; start_timestamp := 10; end_timestamp := Some 20;
     liveaction := {| action := "a"; liveaction_id := Some "c3" |} |}.

(** P4: terminal, end timestamp 100 but start timestamp 200. *)
Definition P4 : ActionExecutionDB :=
  {| id := "p4"; status := "succeeded"; start_timestamp := 200; end_timestamp := Some 100;
     liveaction := {| action := "a"; liveaction_id := None |} |}.

Definition store_of (es : list ActionExecutionDB) (ls : list LiveActionDB)
    (rej_e rej_l : string -> bool) : Store :=
  {| executions := es; liveactions := ls;
     execution_delete_rejected := rej_e; liveaction_delete_rejected := rej_l |}.

Definition store_ok : Store := store_of [P1; P2; P3] [C1] accept_all accept_all.
Definition store_parent_rejected : Store := store_of [P1; P2; P3] [C1] (reject "p1") accept_all.
Definition store_child_rejected : Store := store_of [P1; P2; P3] [C1] accept_all (reject "c1").
Definition store_late_start : Store := store_of [P4] [] accept_all accept_all.

(** P5: terminal, with a child id that no live action has. *)
Definition P5 : ActionExecutionDB :=
  {| id := "p5"; status := "failed"; start_timestamp := 1; end_timestamp := Some 2;
     liveaction := {| action := "a"; liveaction_id := Some "gone" |} |}.

(** A candidate references a live action when its embedded child id is that
    live action's id, and the id is not empty. *)
Definition references (execution_db : ActionExecutionDB) (l : LiveActionDB) : Prop :=
  liveaction_id (liveaction execution_db) = Some (la_id l) /\ la_id l <> "".

Definition is_teardown (c : Call) : bool :=
  match c with
  | Call_common_teardown => true
  | _ => false
  end.

(** ** Registration of the command-line options *)

Section CliOpts.

Variable Opt : Type.
Variable Conf : Type.
Variable Err : Type.

(** [cfg.CONF.register_cli_opt(opt)] of oslo.config: the configuration
    after the call and the exception the call raised, if any. *)
Variable register_cli_opt : Opt -> Conf -> option Err * Conf.

Fixpoint _do_register_cli_opts (opts : list Opt) (ignore_errors : bool) (conf : Conf)
    : option Err * Conf :=
  match opts with
  | [] => (None, conf)
  | opt :: opts' =>
      match register_cli_opt opt conf with
      | (None, conf') => _do_register_cli_opts opts' ignore_errors conf'
      | (Some e, conf') =>
          if negb ignore_errors then (Some e, conf')
          else _do_register_cli_opts opts' ignore_errors conf'
      end
  end.

(** The configuration after registering every option in turn, whatever
    each call raised. *)
Definition register_each (opts : list Opt) (conf : Conf) : Conf :=
  fold_left (fun c opt => snd (register_cli_opt opt c)) opts conf.

End CliOpts.

Arguments _do_register_cli_opts {Opt Conf Err} register_cli_opt opts ignore_errors conf.
Arguments register_each {Opt Conf Err} register_cli_opt opts conf.

(** [cfg.StrOpt(name, default=..., help=...)]. *)
Record StrOpt : Type := {
  opt_name : string;
  opt_default : option string;
  opt_help : string
}.

Definition timestamp_opt : StrOpt :=
  {| opt_name := "timestamp"; opt_default := None;
     opt_help := ("Will delete execution and liveaction models older than " ++
                  "this UTC timestamp. " ++
                  "Example value: 2015-03-13T19:01:27.255542Z.")%string |}.

Definition action_ref_opt : StrOpt :=
  {| opt_name := "action-ref"; opt_default := Some "";
     opt_help := "action-ref to delete executions for." |}.

Definition cli_opts : list StrOpt := [timestamp_opt; action_ref_opt].

Definition _register_cli_opts {Conf Err : Type}
    (register_cli_opt : StrOpt -> Conf -> option Err * Conf) (conf : Conf) : option Err * Conf :=
  _do_register_cli_opts register_cli_opt cli_opts false conf.

(** A registry for the examples: the names registered so far; a name that
    is already there is refused. *)
Definition register_once (opt : StrOpt) (conf : list string) : option string * list string :=
  if py_in (opt_name opt) conf then (Some (opt_name opt), conf)
  else (None, conf ++ [opt_name opt]).

(** ** st2common/models/api/rbac.py: the role definition file format *)

Module Rbac.

(** One entry of [permission_grants]: a dict read with
    [.get('resource_uid', None)] and [.get('permission_types', [])]. *)
Record PermissionGrant : Type := {
  resource_uid : option string;
  permission_types : option (list string)
}.

(** The attributes of a [RoleDefinitionFileFormatAPI] object; an attribute
    that was not given is [None]. *)
Record RoleDefinitionFileFormatAPI : Type := {
  name : option string;
  description : option string;
  enabled : option bool;
  permission_grants : option (list PermissionGrant)
}.

(** What [validate] raises: an exception of one of the functions it calls,
    or one of its own two [ValueError]s. *)
Inductive Error (Ext : Type) : Type :=
| Raised (e : Ext)
| Invalid_for_resource_type (permission_type resource_type : string)
| Invalid_global (permission_type valid_global_permission_types : string).
Arguments Raised {Ext} e.
Arguments Invalid_for_resource_type {Ext} permission_type resource_type.
Arguments Invalid_global {Ext} permission_type valid_global_permission_types.

(** [for x in xs: body x] where the body may raise: the first exception. *)
Fixpoint for_raise {A E : Type} (xs : list A) (body : A -> option E) : option E :=
  match xs with
  | [] => None
  | x :: xs' =>
      match body x with
      | Some e => Some e
      | None => for_raise xs' body
      end
  end.

(** [if resource_uid:] on the value of [.get('resource_uid', None)]. *)
Definition uid_truthy (resource_uid : option string) : bool :=
  match resource_uid with
  | None => false
  | Some u => negb (u =? "")%string
  end.

Section Validate.

Variable Ext : Type.
Variable Cleaned : Type.

(** [BaseAPI.validate] (st2common.models.api.base, not among the sources):
    the JSON schema validation, which returns the cleaned value or raises. *)
Variable BaseAPI_validate : RoleDefinitionFileFormatAPI -> Ext + Cleaned.

(** [st2common.util.uid.parse_uid] (not among the sources): the resource
    type and reference of a uid, or an exception. *)
Variable parse_uid : string -> Ext + (string * string).

(** [PermissionType.get_valid_permissions_for_resource_type] and
    [GLOBAL_PERMISSION_TYPES] of st2common.rbac.types (not among the
    sources). *)
Variable get_valid_permissions_for_resource_type : string -> Ext + list string.
Variable GLOBAL_PERMISSION_TYPES : list string.

(** The body of the loop over [permission_grants]: what it raises. *)
Definition validate_grant (permission_grant : PermissionGrant) : option (Error Ext) :=
  let resource_uid := resource_uid permission_grant in
  let permission_types := match permission_types permission_grant with
                          | Some l => l
                          | None => []
                          end in
  if uid_truthy resource_uid then
    match parse_uid (match resource_uid with Some u => u | None => "" end) with
    | inl e => Some (Raised e)
    | inr (resource_type, _) =>
        match get_valid_permissions_for_resource_type resource_type with
        | inl e => Some (Raised e)
        | inr valid_permission_types =>
            for_raise permission_types
              (fun permission_type =>
                 if negb (py_in permission_type valid_permission_types)
                 then Some (Invalid_for_resource_type permission_type resource_type)
                 else None)
        end
    end
  else
    for_raise permission_types
      (fun permission_type =>
         if negb (py_in permission_type GLOBAL_PERMISSION_TYPES)
         then Some (Invalid_global permission_type
                      (String.concat ", " GLOBAL_PERMISSION_TYPES))
         else None).

Definition validate (self : RoleDefinitionFileFormatAPI) : Error Ext + Cleaned :=
  match BaseAPI_validate self with
  | inl e => inl (Raised e)
  | inr cleaned =>
      let permission_grants := match permission_grants self with
                               | Some l => l
                               | None => []
                               end in
      match for_raise permission_grants validate_grant with
      | Some e => inl e
      | None => inr cleaned
      end
  end.

(** A grant the custom validation accepts. *)
Definition grant_ok (g : PermissionGrant) : Prop :=
  let types := match permission_types g with Some l => l | None => [] end in
  match resource_uid g with
  | Some u =>
      if (u =? "")%string then forall t, In t types -> In t GLOBAL_PERMISSION_TYPES
      else exists resource_type reference valid,
          parse_uid u = inr (resource_type, reference) /\
          get_valid_permissions_for_resource_type resource_type = inr valid /\
          forall t, In t types -> In t valid
  | None => forall t, In t types -> In t GLOBAL_PERMISSION_TYPES
  end.

End Validate.

Arguments validate_grant {Ext} parse_uid get_valid_permissions_for_resource_type
  GLOBAL_PERMISSION_TYPES permission_grant.
Arguments validate {Ext Cleaned} BaseAPI_validate parse_uid
  get_valid_permissions_for_resource_type GLOBAL_PERMISSION_TYPES self.
Arguments grant_ok {Ext} parse_uid get_valid_permissions_for_resource_type
  GLOBAL_PERMISSION_TYPES g.

(** Tables for the examples. *)
Definition example_parse_uid (uid : string) : unit + (string * string) :=
  if (uid =? "action:core.local")%string then inr ("action", "core.local")
  else if (uid =? "rule:core.r1")%string then inr ("rule", "core.r1")
  else inl tt.

Definition example_valid_permissions (resource_type : string) : unit + list string :=
  if (resource_type =? "action")%string then inr ["action_view"; "action_execute"]
  else if (resource_type =? "rule")%string then inr ["rule_view"]
  else inl tt.

Definition example_global : list string := ["pack_list"; "action_list"].

Definition example_schema (self : RoleDefinitionFileFormatAPI) : unit + string :=
  match name self with
  | Some n => inr n
  | None => inl tt
  end.

Definition example_role (grants : list PermissionGrant) : RoleDefinitionFileFormatAPI :=
  {| name := Some "observer"; description := None; enabled := Some true;
     permission_grants := Some grants |}.

End Rbac.

(** ** The script over collaborators that can fail

    [purge_executions] and [main] once more, line for line, with the calls
    that leave the script taken as they come: the registration of the
    options ([cfg.CONF.register_cli_opt], called by [_register_cli_opts] at
    the start of [main]), [common_setup], [common_teardown] and
    [ActionExecution.query] may each raise and may each do anything to the
    process state. The definitions above are the instance where the
    registration and the setup succeed and the store answers the query. *)

Module Script.

Section Collaborators.

Variable register_cli_opt : StrOpt -> World -> option Exc * World.
Variable common_setup : M unit.
Variable common_teardown : M unit.
Variable query : Z -> M (list ActionExecutionDB).
Variable strptime : string -> option Z.

(** [_register_cli_opts()] as a step of the script: what the strict
    registration raises escapes. *)
Definition register_cli_opts : M unit :=
  fun w =>
    match _register_cli_opts register_cli_opt w with
    | (None, w') => (Ok tt, w')
    | (Some e, w') => (Raise e, w')
    end.

Definition selectCandidates (timestamp : Z) (action_ref : PyVal)
    : M (list ActionExecutionDB) :=
  executions <- query (isotime_parse timestamp) ;;
  ret (filter (fun execution => _should_delete execution action_ref timestamp) executions).

Definition purge_executions (timestamp action_ref : PyVal) : M unit :=
  if negb (truthy timestamp)
  then LOG_error Error_SpecifyValidTimestamp
  else
    let action_ref := default_action_ref action_ref in
    t <- strftime timestamp ;;
    LOG_info (Info_PurgingOlderThan t) ;;
    executions_to_delete <- selectCandidates t action_ref ;;
    LOG_info (Info_TotalToDelete (Z.of_nat (List.length executions_to_delete))) ;;
    for_each executions_to_delete _purge_models ;;
    w <- get_world ;;
    LOG_info (Info_TotalDeleted (DELETED_COUNT w)).

Definition main (CONF : Config) : M (option Z) :=
  register_cli_opts ;;
  common_setup ;;
  let timestamp := CONF_timestamp CONF in
  let action_ref := CONF_action_ref CONF in
  if negb (truthy (CONF_value timestamp))
  then LOG_error Error_SupplyTimestamp ;; ret (Some 1)
  else
    timestamp <- match timestamp with
                 | Some s => match strptime s with
                             | Some t => ret (PyDatetime t)
                             | None => raise ValueError
                             end
                 | None => raise ValueError
                 end ;;
    purge_executions timestamp (PyStr action_ref) ;;
    common_teardown ;;
    ret None.

End Collaborators.

End Script.

(** A registration that accepts every option, and a store that cannot be
    reached, for the examples. *)
Definition register_accepting (opt : StrOpt) (w : World) : option Exc * World := (None, w).
Definition query_unreachable (t : Z) : M (list ActionExecutionDB) := raise StoreError.

(* ================================================================= *)
(** * Basic facts *)

Lemma py_in_In (x : string) (xs : list string) :
  py_in x xs = true <-> In x xs.
Proof.
  induction xs as [|y ys IH]; simpl.
  - split; [discriminate | tauto].
  - rewrite orb_true_iff, IH, String.eqb_eq. split; intros [H|H]; auto.
Qed.

Lemma py_in_not_In (x : string) (xs : list string) :
  py_in x xs = false <-> ~ In x xs.
Proof.
  rewrite <- py_in_In. destruct (py_in x xs); split; congruence.
Qed.

Lemma end_timestamp__lt_spec (t : Z) (e : ActionExecutionDB) :
  ActionExecution.end_timestamp__lt t e = true <-> end_before e t.
Proof.
  unfold ActionExecution.end_timestamp__lt, end_before.
  destruct (end_timestamp e) as [x|].
  - rewrite Z.ltb_lt. split.
    + intros H. exists x. auto.
    + intros (y & Hy & Hlt). congruence.
  - split; [discriminate | intros (y & Hy & _); discriminate].
Qed.

Lemma py_eq_str (s t : string) : py_eq (PyStr s) (PyStr t) = true <-> s = t.
Proof. simpl. apply String.eqb_eq. Qed.

(** [_should_delete] spelled out: not in progress, started before the
    timestamp and, for an action_ref other than [''], the same action. *)
Lemma _should_delete_spec (e : ActionExecutionDB) (action_ref : PyVal) (timestamp : Z) :
  _should_delete e action_ref timestamp = true <->
  terminal e /\
  start_timestamp e < timestamp /\
  (py_eq action_ref (PyStr "") = false ->
   py_eq (PyStr (action (liveaction e))) action_ref = true).
Proof.
  unfold _should_delete, terminal.
  destruct (py_in (status e) IN_PROGRESS_STATES) eqn:Hin.
  - apply py_in_In in Hin. split; [discriminate | tauto].
  - apply py_in_not_In in Hin.
    destruct (py_eq action_ref (PyStr "")) eqn:Href; simpl.
    + rewrite Z.ltb_lt. split; [intros H; repeat split; auto; discriminate | tauto].
    + rewrite andb_true_iff, Z.ltb_lt. split.
      * intros [H1 H2]. auto.
      * intros (_ & H2 & H3). auto.
Qed.

Lemma selectCandidates_run (timestamp : Z) (action_ref : PyVal) (w : World) :
  selectCandidates timestamp action_ref w =
  (Ok (filter (fun e => _should_delete e action_ref timestamp)
         (filter (ActionExecution.end_timestamp__lt timestamp) (executions (store w)))),
   add_call (Call_ActionExecution_query timestamp) w).
Proof. reflexivity. Qed.

Lemma In_selectCandidates (timestamp : Z) (action_ref : PyVal) (w : World) (e : ActionExecutionDB) :
  In e (returned (selectCandidates timestamp action_ref w)) <->
  In e (executions (store w)) /\
  end_before e timestamp /\
  _should_delete e action_ref timestamp = true.
Proof.
  rewrite selectCandidates_run. unfold returned. simpl.
  rewrite !filter_In, end_timestamp__lt_spec. tauto.
Qed.

Lemma default_action_ref_falsy (action_ref : PyVal) :
  truthy action_ref = false -> default_action_ref action_ref = PyStr "".
Proof. unfold default_action_ref. intros ->. reflexivity. Qed.

Lemma default_action_ref_str (s : string) :
  default_action_ref (PyStr s) = PyStr s.
Proof.
  unfold default_action_ref. simpl.
  destruct (String.eqb_spec s ""); simpl; congruence.
Qed.

(* ================================================================= *)
(** * The eligibility filter *)

(** C1, as stated, fails: P4 is stored, terminal, has its end timestamp
    (100) before the cutoff (150) and no action filter applies, yet it is
    not selected, because [_should_delete] also compares the start
    timestamp (200) with the cutoff. *)
Lemma C1_counterexample_late_start :
  let w := module_loaded store_late_start in
  (In P4 (executions (store w)) /\
   end_before P4 150 /\
   terminal P4 /\
   ("" <> "" -> action (liveaction P4) = "")) /\
  ~ In P4 (returned (selectCandidates 150 (PyStr "") w)).
Proof.
  simpl. repeat split.
  - left. reflexivity.
  - exists 100. split; [reflexivity | lia].
  - unfold terminal, IN_PROGRESS_STATES. simpl.
    intros [H|[H|[H|[H|[H|[]]]]]]; discriminate H.
  - intros H. contradiction H. reflexivity.
  - vm_compute. tauto.
Qed.

(** C1 (amended): selectCandidates returns a stored execution if and only
    if its end timestamp and its start timestamp are both strictly before
    the cutoff, its status is terminal and, when the action-ref filter is
    not empty, its action reference equals the filter. The selection always
    returns (it does not raise). *)
Theorem C1_selectCandidates_iff (cutoff : Z) (action_ref : string) (w : World) :
  exists l,
    fst (selectCandidates cutoff (PyStr action_ref) w) = Ok l /\
    forall e,
      In e l <->
      In e (executions (store w)) /\
      end_before e cutoff /\
      start_timestamp e < cutoff /\
      terminal e /\
      (action_ref <> "" -> action (liveaction e) = action_ref).
Proof.
  eexists. split; [rewrite selectCandidates_run; reflexivity|].
  intros e. simpl. rewrite !filter_In, end_timestamp__lt_spec, _should_delete_spec.
  rewrite py_eq_str.
  assert (Href : py_eq (PyStr action_ref) (PyStr "") = false <-> action_ref <> "").
  { simpl. apply String.eqb_neq. }
  rewrite Href. tauto.
Qed.

(** C3: an execution whose status is in the in-progress set (running,
    scheduled, requested, canceling, delayed) is never returned by
    selectCandidates, whatever its timestamps, the cutoff and the filter. *)
Theorem C3_in_progress_never_selected (cutoff : Z) (action_ref : PyVal) (w : World)
    (e : ActionExecutionDB) :
  In (status e) ["running"; "scheduled"; "requested"; "canceling"; "delayed"] ->
  ~ In e (returned (selectCandidates cutoff action_ref w)).
Proof.
  intros Hst Hin. apply In_selectCandidates in Hin.
  destruct Hin as (_ & _ & Hdel). apply _should_delete_spec in Hdel.
  destruct Hdel as (Hterm & _). apply Hterm. exact Hst.
Qed.

(** C3 at P3: running, with timestamps far before the cutoff 1000. *)
Lemma C3_witness_running :
  In (status P3) ["running"; "scheduled"; "requested"; "canceling"; "delayed"] /\
  In P3 (executions (store (module_loaded store_ok))) /\
  ~ In P3 (returned (selectCandidates 1000 (PyStr "") (module_loaded store_ok))).
Proof.
  assert (H : In (status P3) ["running"; "scheduled"; "requested"; "canceling"; "delayed"]).
  { simpl. left. reflexivity. }
  split; [exact H|]. split.
  - simpl. right. right. left. reflexivity.
  - apply (C3_in_progress_never_selected 1000 (PyStr "") (module_loaded store_ok) P3 H).
Defined.

(* ================================================================= *)
(** * The per-candidate step *)

Lemma execution_deletes_app (cs ds : list Call) :
  execution_deletes (cs ++ ds) = execution_deletes cs ++ execution_deletes ds.
Proof.
  induction cs as [|c cs IH]; simpl; [reflexivity|].
  destruct c; simpl; rewrite IH; reflexivity.
Qed.

Lemma liveaction_deletes_app (cs ds : list Call) :
  liveaction_deletes (cs ++ ds) = liveaction_deletes cs ++ liveaction_deletes ds.
Proof.
  induction cs as [|c cs IH]; simpl; [reflexivity|].
  destruct c; simpl; rewrite IH; reflexivity.
Qed.

Lemma filter_zombie_app (xs ys : list LogRecord) :
  filter is_zombie (xs ++ ys) = filter is_zombie xs ++ filter is_zombie ys.
Proof. apply filter_app. Qed.

(** Unfold one run of [_purge_models] and split on every test it makes:
    the embedded id, the child lookup and the two store verdicts. *)
Ltac unfold_run :=
  cbv beta iota delta
    [_purge_models try_except try_except_else bind ret raise modify get_world
     LOG_error LOG_exception LOG_info
     LiveAction.get_by_id LiveAction.delete ActionExecution.delete
     id_falsy resolved_child] in *;
  simpl in *.

Ltac split_run :=
  repeat match goal with
  | |- context [match liveaction_id (liveaction ?e) with _ => _ end] =>
      destruct (liveaction_id (liveaction e)) eqn:?; simpl in *
  | |- context [if (?i =? "")%string then _ else _] =>
      destruct (i =? "")%string eqn:?; simpl in *
  | |- context [match find ?f ?l with _ => _ end] =>
      destruct (find f l) eqn:?; simpl in *
  | |- context [if execution_delete_rejected ?s ?i then _ else _] =>
      destruct (execution_delete_rejected s i) eqn:?; simpl in *
  | |- context [if liveaction_delete_rejected ?s ?i then _ else _] =>
      destruct (liveaction_delete_rejected s i) eqn:?; simpl in *
  end.

Ltac step_cases := unfold_run; split_run; try discriminate; try congruence.

Lemma _purge_models_returns (e : ActionExecutionDB) (w : World) :
  fst (_purge_models e w) = Ok tt.
Proof. step_cases; reflexivity. Qed.

(** The step never changes which deletes the store rejects. *)
Lemma _purge_models_verdicts (e : ActionExecutionDB) (w : World) :
  execution_delete_rejected (store (snd (_purge_models e w))) =
    execution_delete_rejected (store w) /\
  liveaction_delete_rejected (store (snd (_purge_models e w))) =
    liveaction_delete_rejected (store w).
Proof. step_cases; split; reflexivity. Qed.

(** The stored executions after the step. *)
Lemma _purge_models_executions (e : ActionExecutionDB) (w : World) :
  executions (store (snd (_purge_models e w))) =
  if execution_delete_rejected (store w) (id e)
  then executions (store w)
  else filter (fun x => negb (id x =? id e)%string) (executions (store w)).
Proof. step_cases; reflexivity. Qed.

(** The step attempts the delete of its candidate, exactly once. *)
Lemma _purge_models_attempts (e : ActionExecutionDB) (w : World) :
  execution_deletes (calls (snd (_purge_models e w))) =
  execution_deletes (calls w) ++ [id e].
Proof.
  step_cases; rewrite ?execution_deletes_app; simpl;
    rewrite ?app_nil_r, <- ?app_assoc; reflexivity.
Qed.

(** The step counts the child lookups that succeed. *)
Lemma _purge_models_count (e : ActionExecutionDB) (w : World) :
  DELETED_COUNT (snd (_purge_models e w)) =
  DELETED_COUNT w + match resolved_child e (store w) with Some _ => 1 | None => 0 end.
Proof.
  unfold resolved_child.
  step_cases; rewrite ?Z.add_0_r; reflexivity.
Qed.

(** When the store rejects the delete of the execution, the step logs the
    exception, leaves the store as it is and attempts no live-action
    delete. *)
Lemma _purge_models_parent_rejected (e : ActionExecutionDB) (w : World) :
  execution_delete_rejected (store w) (id e) = true ->
  store (snd (_purge_models e w)) = store w /\
  liveaction_deletes (calls (snd (_purge_models e w))) = liveaction_deletes (calls w) /\
  exists log, LOG (snd (_purge_models e w)) = LOG w ++ log ++ [Exception_DeletingExecution e].
Proof.
  intros Hrej.
  step_cases; rewrite ?liveaction_deletes_app; simpl; rewrite ?app_nil_r;
    (split; [reflexivity | split; [reflexivity|]]); rewrite <- ?app_assoc; simpl.
  - exists [Error_InvalidLiveActionId e; Exception_LiveActionNotFound (Some s)]. reflexivity.
  - exists []. reflexivity.
  - exists [Exception_LiveActionNotFound (Some s)]. reflexivity.
  - exists [Error_InvalidLiveActionId e; Exception_LiveActionNotFound None]. reflexivity.
Qed.

(** C2: the code at a candidate whose child exists and whose delete the
    store rejects. Nothing is deleted (both records stay, no live-action
    delete is attempted, the loop goes on to P2), yet [DELETED_COUNT], which
    the run reports as the number of execution models deleted, is
    incremented for that candidate. *)
Lemma C2_count_incremented_on_parent_failure :
  let w := module_loaded store_parent_rejected in
  let w' := snd (_purge_models P1 w) in
  execution_delete_rejected (store w) (id P1) = true /\
  store w' = store w /\
  liveaction_deletes (calls w') = [] /\
  DELETED_COUNT w = 0 /\
  DELETED_COUNT w' = 1 /\
  execution_deletes (calls (snd (for_each [P1; P2] _purge_models w))) = ["p1"; "p2"].
Proof. vm_compute. repeat split; reflexivity. Qed.

(** C4, as stated, fails: the module keeps a single counter. When the
    delete of P1 succeeds and the delete of its child C1 is rejected, the
    counter and the summary the run reports end exactly as in the run where
    the child delete succeeds; no orphan count exists to be incremented. The
    zombie shows only in the exception log. *)
Lemma C4_counterexample_no_orphan_count :
  let w := module_loaded store_child_rejected in
  let w_ok := module_loaded store_ok in
  (resolved_child P1 (store w) = Some C1 /\
   execution_delete_rejected (store w) (id P1) = false /\
   liveaction_delete_rejected (store w) (la_id C1) = true) /\
  liveactions (store (snd (_purge_models P1 w))) = [C1] /\
  liveactions (store (snd (_purge_models P1 w_ok))) = [] /\
  DELETED_COUNT (snd (_purge_models P1 w)) = DELETED_COUNT (snd (_purge_models P1 w_ok)) /\
  reported (LOG (snd (purge_executions (PyDatetime 150) PyNone w))) =
  reported (LOG (snd (purge_executions (PyDatetime 150) PyNone w_ok))).
Proof. vm_compute. repeat split; reflexivity. Qed.

(** C4 (amended): when the delete of the candidate succeeds and the delete
    of its resolved child is rejected, the step logs one zombie record and
    nothing else, increments [DELETED_COUNT] (the only counter the module
    keeps) exactly once, attempts the child delete exactly once, removes the
    execution and leaves the live actions as they are. *)
Theorem C4_zombie_logged_once (e : ActionExecutionDB) (w : World) (l : LiveActionDB) :
  resolved_child e (store w) = Some l ->
  execution_delete_rejected (store w) (id e) = false ->
  liveaction_delete_rejected (store w) (la_id l) = true ->
  let w' := snd (_purge_models e w) in
  fst (_purge_models e w) = Ok tt /\
  LOG w' = LOG w ++ [Exception_ZombieLiveAction l] /\
  DELETED_COUNT w' = DELETED_COUNT w + 1 /\
  liveaction_deletes (calls w') = liveaction_deletes (calls w) ++ [la_id l] /\
  execution_deletes (calls w') = execution_deletes (calls w) ++ [id e] /\
  executions (store w') = filter (fun x => negb (id x =? id e)%string) (executions (store w)) /\
  liveactions (store w') = liveactions (store w).
Proof.
  intros Hchild Hparent Hrej. simpl.
  rewrite _purge_models_returns, _purge_models_attempts, _purge_models_count,
    _purge_models_executions, Hchild, Hparent.
  repeat (split; [reflexivity|]).
  revert Hchild Hparent Hrej.
  step_cases; intros Hchild Hparent Hrej;
    injection Hchild as <-; try congruence;
    rewrite ?liveaction_deletes_app; simpl; rewrite ?app_nil_r; repeat split; reflexivity.
Qed.

(** C4 (amended) at P1 in a store that rejects the delete of its child C1. *)
Lemma C4_witness_child_rejected :
  let w := module_loaded store_child_rejected in
  let w' := snd (_purge_models P1 w) in
  LOG w' = [Exception_ZombieLiveAction C1] /\
  DELETED_COUNT w' = 1 /\
  liveaction_deletes (calls w') = ["c1"] /\
  liveactions (store w') = [C1].
Proof.
  pose proof (C4_zombie_logged_once P1 (module_loaded store_child_rejected) C1
                eq_refl eq_refl eq_refl) as H.
  simpl in H. destruct H as (_ & Hlog & Hcount & Hla & _ & _ & Hstore).
  repeat split; assumption.
Defined.

Lemma removed_by_id (i : string) (es : list ActionExecutionDB) (x : ActionExecutionDB) :
  In x (filter (fun y => negb (id y =? i)%string) es) <-> In x es /\ id x <> i.
Proof.
  rewrite filter_In, negb_true_iff, String.eqb_neq. tauto.
Qed.

(** C5: for a candidate whose embedded child id is absent or empty, the
    step still attempts the delete of the execution and, unless the store
    rejects that delete, the execution is gone afterwards; the candidate is
    logged as an invalid and not-found child, no zombie is logged, no child
    delete is attempted and no live action is touched. *)
Theorem C5_missing_child_parent_deleted (e : ActionExecutionDB) (w : World) :
  id_falsy (liveaction_id (liveaction e)) = true ->
  let w' := snd (_purge_models e w) in
  fst (_purge_models e w) = Ok tt /\
  execution_deletes (calls w') = execution_deletes (calls w) ++ [id e] /\
  (execution_delete_rejected (store w) (id e) = false ->
   forall x, In x (executions (store w')) <-> In x (executions (store w)) /\ id x <> id e) /\
  (exists log,
     LOG w' = LOG w ++ [Error_InvalidLiveActionId e;
                        Exception_LiveActionNotFound (liveaction_id (liveaction e))] ++ log) /\
  filter is_zombie (LOG w') = filter is_zombie (LOG w) /\
  liveaction_deletes (calls w') = liveaction_deletes (calls w) /\
  liveactions (store w') = liveactions (store w).
Proof.
  intros Hid. simpl.
  split; [apply _purge_models_returns|].
  split; [apply _purge_models_attempts|].
  split.
  { intros Hacc x. rewrite _purge_models_executions, Hacc. apply removed_by_id. }
  revert Hid.
  step_cases; intros _;
    rewrite ?filter_zombie_app, ?liveaction_deletes_app; simpl;
    rewrite ?app_nil_r, <- ?app_assoc; simpl;
    (split; [eexists; reflexivity | repeat split; reflexivity]).
Qed.

(** C5 at P2, whose embedded dict has no child id. *)
Lemma C5_witness_no_child_reference :
  let w := module_loaded store_ok in
  let w' := snd (_purge_models P2 w) in
  id_falsy (liveaction_id (liveaction P2)) = true /\
  execution_deletes (calls w') = ["p2"] /\
  (forall x, In x (executions (store w')) <-> In x (executions (store w)) /\ id x <> "p2") /\
  filter is_zombie (LOG w') = [] /\
  liveactions (store w') = [C1].
Proof.
  pose proof (C5_missing_child_parent_deleted P2 (module_loaded store_ok) eq_refl) as H.
  simpl in H. destruct H as (_ & Hcalls & Hgone & _ & Hzombie & _ & Hlive).
  split; [reflexivity|].
  split; [exact Hcalls|].
  split; [exact (Hgone eq_refl)|].
  split; [exact Hzombie | exact Hlive].
Defined.

(* ================================================================= *)
(** * The loop over the candidates *)

Lemma for_each_cons (e : ActionExecutionDB) (es : list ActionExecutionDB) (w : World) :
  for_each (e :: es) _purge_models w = for_each es _purge_models (snd (_purge_models e w)).
Proof.
  simpl. unfold bind.
  pose proof (_purge_models_returns e w) as H.
  destruct (_purge_models e w) as [r w1]. simpl in *. subst r. reflexivity.
Qed.

Lemma for_each_returns (es : list ActionExecutionDB) (w : World) :
  fst (for_each es _purge_models w) = Ok tt.
Proof.
  revert w. induction es as [|e es IH]; intros w.
  - reflexivity.
  - rewrite for_each_cons. apply IH.
Qed.

Lemma for_each_attempts (es : list ActionExecutionDB) (w : World) :
  execution_deletes (calls (snd (for_each es _purge_models w))) =
  execution_deletes (calls w) ++ map id es.
Proof.
  revert w. induction es as [|e es IH]; intros w.
  - simpl. rewrite app_nil_r. reflexivity.
  - rewrite for_each_cons, IH, _purge_models_attempts, <- app_assoc. reflexivity.
Qed.

(** C6: the per-candidate step never raises, whatever the child lookup and
    the two deletes do, and the loop over any candidate list returns after
    attempting the delete of every candidate, in order. *)
Theorem C6_no_exception_escapes :
  (forall e w, fst (_purge_models e w) = Ok tt) /\
  (forall es w,
     fst (for_each es _purge_models w) = Ok tt /\
     execution_deletes (calls (snd (for_each es _purge_models w))) =
     execution_deletes (calls w) ++ map id es).
Proof.
  split.
  - exact _purge_models_returns.
  - intros es w. split; [apply for_each_returns | apply for_each_attempts].
Qed.

(* ================================================================= *)
(** * A whole run *)

(** A run with a [datetime]: log, select, log, purge each candidate, log. *)
Lemma purge_executions_run (t : Z) (action_ref : PyVal) (w : World) :
  purge_executions (PyDatetime t) action_ref w =
  let es := candidates t action_ref w in
  let w1 := add_log (Info_TotalToDelete (Z.of_nat (List.length es)))
              (add_call (Call_ActionExecution_query t)
                 (add_log (Info_PurgingOlderThan t) w)) in
  let w2 := snd (for_each es _purge_models w1) in
  (Ok tt, add_log (Info_TotalDeleted (DELETED_COUNT w2)) w2).
Proof.
  unfold purge_executions, candidates, returned.
  rewrite selectCandidates_run. simpl.
  unfold bind at 1. simpl. unfold bind at 1. unfold LOG_info at 1, modify at 1.
  unfold bind at 1. rewrite selectCandidates_run. simpl.
  unfold bind at 1. unfold LOG_info at 1, modify at 1.
  unfold bind at 1.
  match goal with
  | |- context [for_each ?es _purge_models ?w1] =>
      pose proof (for_each_returns es w1) as H;
      destruct (for_each es _purge_models w1) as [r w2] eqn:Hrun
  end.
  simpl in H. subst r. reflexivity.
Qed.

(** C7: when the timestamp is absent (None, or empty), [purge_executions]
    only logs an error and returns, with no call to the persistence layer
    and the store as it was; [main] logs, returns 1 without running the
    purge, so the process exits with a non-zero status and no query or
    delete was made. *)
Theorem C7_no_timestamp_no_purge (timestamp : PyVal) :
  truthy timestamp = false ->
  (forall action_ref w,
     purge_executions timestamp action_ref w = (Ok tt, add_log Error_SpecifyValidTimestamp w) /\
     calls (snd (purge_executions timestamp action_ref w)) = calls w /\
     store (snd (purge_executions timestamp action_ref w)) = store w) /\
  (forall strptime CONF w,
     CONF_value (CONF_timestamp CONF) = timestamp ->
     fst (main strptime CONF w) = Ok (Some 1) /\
     exit_status (fst (main strptime CONF w)) <> 0 /\
     filter is_query_or_delete (calls (snd (main strptime CONF w))) =
     filter is_query_or_delete (calls w) /\
     store (snd (main strptime CONF w)) = store w).
Proof.
  intros Hfalsy. split.
  - intros action_ref w. unfold purge_executions. rewrite Hfalsy. simpl.
    repeat split; reflexivity.
  - intros strptime CONF w Hconf. unfold main.
    rewrite Hconf, Hfalsy. simpl.
    unfold bind, modify, LOG_error, ret. simpl.
    rewrite filter_app. simpl. rewrite app_nil_r.
    repeat split; try reflexivity. discriminate.
Qed.

(** C7 at [timestamp=None] for [purge_executions] and at an empty
    configured timestamp for [main]. *)
Lemma C7_witness_none_and_empty :
  (truthy PyNone = false /\
   purge_executions PyNone PyNone (module_loaded store_ok) =
   (Ok tt, add_log Error_SpecifyValidTimestamp (module_loaded store_ok))) /\
  (truthy (PyStr "") = false /\
   exit_status
     (fst (main (fun _ => Some 0) {| CONF_timestamp := Some ""; CONF_action_ref := "" |}
             (module_loaded store_ok))) <> 0).
Proof.
  split.
  - split; [reflexivity|].
    apply (proj1 (C7_no_timestamp_no_purge PyNone eq_refl)).
  - split; [reflexivity|].
    apply (proj2 (C7_no_timestamp_no_purge (PyStr "") eq_refl)
             (fun _ => Some 0) {| CONF_timestamp := Some ""; CONF_action_ref := "" |}
             (module_loaded store_ok) eq_refl).
Defined.

Lemma for_each_verdicts (es : list ActionExecutionDB) (w : World) :
  execution_delete_rejected (store (snd (for_each es _purge_models w))) =
    execution_delete_rejected (store w) /\
  liveaction_delete_rejected (store (snd (for_each es _purge_models w))) =
    liveaction_delete_rejected (store w).
Proof.
  revert w. induction es as [|e es IH]; intros w.
  - split; reflexivity.
  - rewrite for_each_cons.
    destruct (IH (snd (_purge_models e w))) as [IH1 IH2].
    destruct (_purge_models_verdicts e w) as [H1 H2].
    rewrite IH1, IH2, H1, H2. split; reflexivity.
Qed.

(** The executions left by the loop: those that were stored before, other
    than the candidates whose delete the store accepted. *)
Lemma for_each_executions (es : list ActionExecutionDB) (w : World) (x : ActionExecutionDB) :
  In x (executions (store (snd (for_each es _purge_models w)))) <->
  In x (executions (store w)) /\
  forall e, In e es -> execution_delete_rejected (store w) (id e) = false -> id x <> id e.
Proof.
  revert w. induction es as [|e es IH]; intros w.
  - simpl. split; [intros H; split; [exact H | intros e []] | tauto].
  - rewrite for_each_cons, IH.
    destruct (_purge_models_verdicts e w) as [Hv _]. rewrite Hv.
    rewrite _purge_models_executions.
    destruct (execution_delete_rejected (store w) (id e)) eqn:Hrej.
    + split.
      * intros [Hin Hes]. split; [exact Hin|].
        intros e' [<-|Hin'] Hacc; [congruence | apply Hes; assumption].
      * intros [Hin Hes]. split; [exact Hin|].
        intros e' Hin' Hacc. apply Hes; [right; assumption | assumption].
    + rewrite removed_by_id. split.
      * intros [[Hin Hne] Hes]. split; [exact Hin|].
        intros e' [<-|Hin'] Hacc; [exact Hne | apply Hes; assumption].
      * intros [Hin Hes]. split; [split; [exact Hin | apply Hes; [left; reflexivity | exact Hrej]]|].
        intros e' Hin' Hacc. apply Hes; [right; assumption | assumption].
Qed.

Lemma candidates_spec (t : Z) (action_ref : PyVal) (w : World) (e : ActionExecutionDB) :
  In e (candidates t action_ref w) <->
  In e (executions (store w)) /\
  end_before e t /\
  _should_delete e (default_action_ref action_ref) t = true.
Proof. apply In_selectCandidates. Qed.

(** The candidates of a second run over the store left by a first run with
    the same criteria: the first run's candidates whose delete was
    rejected. *)
Lemma candidates_after_run (t : Z) (action_ref : PyVal) (w : World) (x : ActionExecutionDB) :
  In x (candidates t action_ref (snd (purge_executions (PyDatetime t) action_ref w))) <->
  In x (candidates t action_ref w) /\
  forall e, In e (candidates t action_ref w) ->
            execution_delete_rejected (store w) (id e) = false -> id x <> id e.
Proof.
  rewrite purge_executions_run. cbv zeta. rewrite candidates_spec. simpl snd.
  change (store (add_log ?r ?w')) with (store w').
  rewrite for_each_executions. simpl store.
  rewrite candidates_spec. tauto.
Qed.

(** C8, as stated, fails: when the store rejects the delete of P1, the
    first run leaves P1 in place and a second run with the same criteria
    finds it again as a candidate and attempts its delete again. *)
Lemma C8_counterexample_rejected_delete :
  let w := module_loaded store_parent_rejected in
  let w1 := snd (purge_executions (PyDatetime 150) PyNone w) in
  let w2 := snd (purge_executions (PyDatetime 150) PyNone w1) in
  candidates 150 PyNone w1 = [P1] /\
  execution_deletes (calls w1) = ["p1"; "p2"] /\
  execution_deletes (calls w2) = ["p1"; "p2"; "p1"].
Proof. vm_compute. repeat split; reflexivity. Qed.

(** C8 (amended): provided the store rejected the delete of none of the
    first run's candidates, a second run of [purge_executions] with the same
    criteria over the store the first run left finds no candidate, attempts
    no delete and leaves the store and the counter as they were. *)
Theorem C8_second_run_finds_nothing (t : Z) (action_ref : PyVal) (w : World) :
  (forall e, In e (candidates t action_ref w) ->
             execution_delete_rejected (store w) (id e) = false) ->
  let w1 := snd (purge_executions (PyDatetime t) action_ref w) in
  let w2 := snd (purge_executions (PyDatetime t) action_ref w1) in
  candidates t action_ref w1 = [] /\
  fst (purge_executions (PyDatetime t) action_ref w1) = Ok tt /\
  store w2 = store w1 /\
  execution_deletes (calls w2) = execution_deletes (calls w1) /\
  liveaction_deletes (calls w2) = liveaction_deletes (calls w1) /\
  DELETED_COUNT w2 = DELETED_COUNT w1.
Proof.
  intros Hacc. cbv zeta.
  assert (Hnone : candidates t action_ref
                    (snd (purge_executions (PyDatetime t) action_ref w)) = []).
  { destruct (candidates t action_ref (snd (purge_executions (PyDatetime t) action_ref w)))
      as [|x xs] eqn:Hc; [reflexivity|].
    assert (Hx : In x (candidates t action_ref
                         (snd (purge_executions (PyDatetime t) action_ref w)))).
    { rewrite Hc. left. reflexivity. }
    apply candidates_after_run in Hx. destruct Hx as [Hin Hne].
    exfalso. apply (Hne x Hin (Hacc x Hin)). reflexivity. }
  split; [exact Hnone|].
  rewrite (purge_executions_run t action_ref
             (snd (purge_executions (PyDatetime t) action_ref w))).
  rewrite Hnone. simpl.
  rewrite execution_deletes_app, liveaction_deletes_app. simpl. rewrite !app_nil_r.
  repeat split; reflexivity.
Qed.

(** C8 (amended) at a store that rejects no delete. *)
Lemma C8_witness_two_runs :
  let w := module_loaded store_ok in
  let w1 := snd (purge_executions (PyDatetime 150) PyNone w) in
  let w2 := snd (purge_executions (PyDatetime 150) PyNone w1) in
  candidates 150 PyNone w = [P1; P2] /\
  candidates 150 PyNone w1 = [] /\
  store w2 = store w1.
Proof.
  pose proof (C8_second_run_finds_nothing 150 PyNone (module_loaded store_ok)) as H.
  cbv zeta in *.
  destruct H as (Hnone & _ & Hstore & _).
  - intros e He. reflexivity.
  - split; [reflexivity|]. split; [exact Hnone | exact Hstore].
Defined.

(* ================================================================= *)
(** * The module counter *)

Lemma _purge_models_shift (d : Z) (e : ActionExecutionDB) (w : World) :
  _purge_models e (shift_count d w) = (Ok tt, shift_count d (snd (_purge_models e w))).
Proof.
  unfold shift_count.
  step_cases; f_equal;
    unfold set_DELETED_COUNT, add_log, add_call, set_store; simpl; f_equal; lia.
Qed.

Lemma for_each_shift (d : Z) (es : list ActionExecutionDB) (w : World) :
  for_each es _purge_models (shift_count d w) =
  (Ok tt, shift_count d (snd (for_each es _purge_models w))).
Proof.
  revert w. induction es as [|e es IH]; intros w.
  - reflexivity.
  - rewrite !for_each_cons, _purge_models_shift. simpl snd. apply IH.
Qed.

Lemma set_DELETED_COUNT_shift (c : Z) (w : World) :
  set_DELETED_COUNT c w = shift_count c (set_DELETED_COUNT 0 w).
Proof. unfold shift_count, set_DELETED_COUNT. simpl. reflexivity. Qed.

Lemma purge_executions_shift (d : Z) (timestamp action_ref : PyVal) (w : World) :
  let run := snd (purge_executions timestamp action_ref w) in
  let shifted := snd (purge_executions timestamp action_ref (shift_count d w)) in
  store shifted = store run /\
  calls shifted = calls run /\
  DELETED_COUNT shifted = DELETED_COUNT run + d.
Proof.
  cbv zeta.
  destruct timestamp as [|b|n|s|t];
    try (unfold purge_executions; simpl;
         match goal with
         | |- context [if ?c then _ else _] => destruct c
         end; simpl; repeat split; reflexivity).
  - unfold purge_executions; simpl. repeat split; reflexivity.
  - rewrite !purge_executions_run. cbv zeta.
    change (candidates t action_ref (shift_count d w)) with (candidates t action_ref w).
    set (es := candidates t action_ref w).
    change (add_log (Info_TotalToDelete (Z.of_nat (List.length es)))
              (add_call (Call_ActionExecution_query t)
                 (add_log (Info_PurgingOlderThan t) (shift_count d w))))
      with (shift_count d
              (add_log (Info_TotalToDelete (Z.of_nat (List.length es)))
                 (add_call (Call_ActionExecution_query t)
                    (add_log (Info_PurgingOlderThan t) w)))).
    rewrite for_each_shift. simpl. repeat split; reflexivity.
Qed.

(** C9, as stated, fails: [DELETED_COUNT] is a module global that is never
    reset. A second invocation in the same process starts from the first
    run's count (1, not 0), finds no candidate and attempts no delete, yet
    reports 1 deleted. *)
Lemma C9_counterexample_count_persists :
  let w := module_loaded store_ok in
  let w1 := snd (purge_executions (PyDatetime 150) PyNone w) in
  let w2 := snd (purge_executions (PyDatetime 150) PyNone w1) in
  DELETED_COUNT w1 = 1 /\
  candidates 150 PyNone w1 = [] /\
  execution_deletes (calls w2) = execution_deletes (calls w1) /\
  liveaction_deletes (calls w2) = liveaction_deletes (calls w1) /\
  reported (LOG w2) = reported (LOG w1) ++ [("to delete", 0); ("deleted", 1)].
Proof. vm_compute. repeat split; reflexivity. Qed.

(** C9 (amended): [DELETED_COUNT] is 0 when the module is loaded and is
    never reset. The selection leaves it as it is and only the per-candidate
    step changes it, never downwards. A run started with the counter at [c]
    does to the store what the same run does with the counter at 0, and ends
    with [c] plus the count of that run alone; the number a run reports is
    the counter at its end. *)
Theorem C9_count_accumulates (timestamp action_ref : PyVal) (w : World) (c : Z) :
  let alone := snd (purge_executions timestamp action_ref (set_DELETED_COUNT 0 w)) in
  let run := snd (purge_executions timestamp action_ref (set_DELETED_COUNT c w)) in
  DELETED_COUNT (module_loaded (store w)) = 0 /\
  (forall t r w0, DELETED_COUNT (snd (selectCandidates t r w0)) = DELETED_COUNT w0) /\
  (forall e w0, DELETED_COUNT w0 <= DELETED_COUNT (snd (_purge_models e w0))) /\
  store run = store alone /\
  calls run = calls alone /\
  DELETED_COUNT run = c + DELETED_COUNT alone /\
  (forall t,
     let run_t := snd (purge_executions (PyDatetime t) action_ref (set_DELETED_COUNT c w)) in
     exists log, LOG run_t = log ++ [Info_TotalDeleted (DELETED_COUNT run_t)]).
Proof.
  cbv zeta.
  split; [reflexivity|].
  split; [intros t r w0; reflexivity|].
  split.
  { intros e w0. rewrite _purge_models_count.
    destruct (resolved_child e (store w0)); lia. }
  rewrite (set_DELETED_COUNT_shift c w).
  destruct (purge_executions_shift c timestamp action_ref (set_DELETED_COUNT 0 w))
    as (Hstore & Hcalls & Hcount).
  split; [exact Hstore|]. split; [exact Hcalls|].
  split; [rewrite Hcount; lia|].
  intros t. rewrite purge_executions_run. cbv zeta. simpl snd.
  eexists. reflexivity.
Qed.

(* ================================================================= *)
(** * The action_ref argument *)

(** C10, as stated, fails when old enough is read as an end timestamp
    before the cutoff: with [action_ref=None] and a valid timestamp, P4 is
    stored, terminal and ended (100) before the cutoff (150), yet the run,
    which returns normally, does not select it, attempts no delete and
    leaves it stored, because its start timestamp (200) is not before the
    cutoff. *)
Lemma C10_counterexample_late_start :
  let w := module_loaded store_late_start in
  let w' := snd (purge_executions (PyDatetime 150) PyNone w) in
  truthy PyNone = false /\
  (In P4 (executions (store w)) /\ end_before P4 150 /\ terminal P4) /\
  fst (purge_executions (PyDatetime 150) PyNone w) = Ok tt /\
  ~ In P4 (candidates 150 PyNone w) /\
  execution_deletes (calls w') = [] /\
  In P4 (executions (store w')).
Proof.
  cbv zeta. split; [reflexivity|]. split.
  { split; [left; reflexivity|]. split.
    - exists 100. split; [reflexivity | lia].
    - unfold terminal, IN_PROGRESS_STATES. simpl.
      intros [H|[H|[H|[H|[H|[]]]]]]; discriminate H. }
  split; [reflexivity|]. split.
  { vm_compute. tauto. }
  split; [reflexivity|].
  vm_compute. left. reflexivity.
Qed.

(** C10 (amended): with a valid timestamp, a falsy [action_ref] ([None],
    [False], [0], ['']) gives the same run as ['']. The action filter is
    off: the candidates are the stored executions that are terminal and
    whose end and start timestamps are both before the cutoff, whatever
    their action reference, and a run that returns normally attempts the
    delete of exactly these candidates, in order. *)
Theorem C10_falsy_action_ref_is_empty (timestamp action_ref : PyVal) (w : World) :
  truthy action_ref = false ->
  purge_executions timestamp action_ref w = purge_executions timestamp (PyStr "") w /\
  (forall t e,
     In e (candidates t action_ref w) <->
     In e (executions (store w)) /\
     end_before e t /\
     start_timestamp e < t /\
     terminal e) /\
  (forall t,
     timestamp = PyDatetime t ->
     fst (purge_executions timestamp action_ref w) = Ok tt ->
     execution_deletes (calls (snd (purge_executions timestamp action_ref w))) =
     execution_deletes (calls w) ++ map id (candidates t action_ref w)).
Proof.
  intros Hfalsy. split; [|split].
  - unfold purge_executions.
    rewrite (default_action_ref_falsy action_ref Hfalsy), (default_action_ref_str "").
    reflexivity.
  - intros t e. rewrite candidates_spec, (default_action_ref_falsy action_ref Hfalsy).
    rewrite _should_delete_spec. simpl.
    split.
    + intros (H1 & H2 & H3 & H4 & _). auto.
    + intros (H1 & H2 & H3 & H4). repeat split; auto. discriminate.
  - intros t -> _. rewrite purge_executions_run. cbv zeta. simpl snd.
    change (calls (add_log ?r ?w')) with (calls w').
    rewrite for_each_attempts. simpl.
    rewrite execution_deletes_app. simpl. rewrite app_nil_r. reflexivity.
Qed.

(** C10 (amended) at [action_ref=None]: the run is the run with [''], and
    it attempts P1 (action "a") and P2 (action "core.local"). *)
Lemma C10_witness_none :
  let w := module_loaded store_ok in
  truthy PyNone = false /\
  purge_executions (PyDatetime 150) PyNone w = purge_executions (PyDatetime 150) (PyStr "") w /\
  In P2 (candidates 150 PyNone w) /\
  execution_deletes (calls (snd (purge_executions (PyDatetime 150) PyNone w))) = ["p1"; "p2"].
Proof.
  destruct (C10_falsy_action_ref_is_empty (PyDatetime 150) PyNone (module_loaded store_ok)
              eq_refl) as (Hsame & Hsel & Hrun).
  cbv zeta. split; [reflexivity|]. split; [exact Hsame|]. split.
  - apply Hsel. split.
    + simpl. right. left. reflexivity.
    + split; [exists 100; split; [reflexivity | lia]|].
      split; [simpl; lia|].
      unfold terminal, IN_PROGRESS_STATES. simpl.
      intros [H|[H|[H|[H|[H|[]]]]]]; discriminate H.
  - rewrite (Hrun 150 eq_refl eq_refl). reflexivity.
Defined.

(* ================================================================= *)
(** * Further properties of the script *)

Lemma removed_liveaction_by_id (i : string) (ls : list LiveActionDB) (x : LiveActionDB) :
  In x (filter (fun y => negb (la_id y =? i)%string) ls) <-> In x ls /\ la_id x <> i.
Proof.
  rewrite filter_In, negb_true_iff, String.eqb_neq. tauto.
Qed.

(** The live actions after one step: those stored before, other than the
    ones the candidate references when both deletes are accepted. *)
Lemma _purge_models_liveactions (e : ActionExecutionDB) (w : World) (l : LiveActionDB) :
  In l (liveactions (store (snd (_purge_models e w)))) <->
  In l (liveactions (store w)) /\
  (references e l ->
   execution_delete_rejected (store w) (id e) = true \/
   liveaction_delete_rejected (store w) (la_id l) = true).
Proof.
  unfold references.
  step_cases.
  all: try match goal with
       | H : find _ _ = Some ?c |- _ =>
           let Hin := fresh "Hin" in let Hid := fresh "Hid" in
           destruct (find_some _ _ H) as [Hin Hid]; apply String.eqb_eq in Hid
       end.
  all: try match goal with
       | H : find _ _ = None |- _ => pose proof (find_none _ _ H) as Hnone
       end.
  all: try rewrite removed_liveaction_by_id.
  all: try match goal with
       | H : (_ =? "")%string = true |- _ => apply String.eqb_eq in H
       | H : (_ =? "")%string = false |- _ => apply String.eqb_neq in H
       end.
  all: split; [intros H; split; [tauto|] | intros [H Href]; try exact H].
  all: try (intros [Hs Hne]; injection Hs as Hs; subst; auto; fail).
  all: try (intros [Hs Hne]; discriminate Hs).
  all: try (intros [Hs Hne]; injection Hs as Hs).
  - right. rewrite <- Hs, <- Hid. exact Heqb1.
  - exfalso. destruct H as [_ H]. apply H. rewrite <- Hs, Hid. reflexivity.
  - split; [exact H|]. intros Heq.
    destruct Href as [Href|Href]; [| discriminate | congruence].
    split; congruence.
  - exfalso. specialize (Hnone l H). rewrite Hs, String.eqb_refl in Hnone. discriminate.
Qed.

Lemma for_each_liveactions (es : list ActionExecutionDB) (w : World) (l : LiveActionDB) :
  In l (liveactions (store (snd (for_each es _purge_models w)))) <->
  In l (liveactions (store w)) /\
  forall e, In e es -> references e l ->
            execution_delete_rejected (store w) (id e) = true \/
            liveaction_delete_rejected (store w) (la_id l) = true.
Proof.
  revert w. induction es as [|e es IH]; intros w.
  - simpl. split; [intros H; split; [exact H | intros e []] | tauto].
  - rewrite for_each_cons, IH, _purge_models_liveactions.
    destruct (_purge_models_verdicts e w) as [Hve Hvl]. rewrite Hve, Hvl.
    split.
    + intros [[Hin He] Hes]. split; [exact Hin|].
      intros e' [<-|Hin']; [exact He | apply Hes; exact Hin'].
    + intros [Hin Hes]. split; [split; [exact Hin | apply Hes; left; reflexivity]|].
      intros e' Hin'. apply Hes. right. exact Hin'.
Qed.

Lemma purge_executions_store_not_datetime (timestamp action_ref : PyVal) (w : World) :
  (forall t, timestamp <> PyDatetime t) ->
  store (snd (purge_executions timestamp action_ref w)) = store w /\
  calls (snd (purge_executions timestamp action_ref w)) = calls w /\
  DELETED_COUNT (snd (purge_executions timestamp action_ref w)) = DELETED_COUNT w.
Proof.
  intros Hnot.
  destruct timestamp as [|b|n|s|t];
    try (unfold purge_executions; simpl;
         try match goal with
             | |- context [if ?c then _ else _] => destruct c
             end; simpl; repeat split; reflexivity).
  exfalso. apply (Hnot t). reflexivity.
Qed.

Lemma executions_after_run (t : Z) (action_ref : PyVal) (w : World) (x : ActionExecutionDB) :
  In x (executions (store (snd (purge_executions (PyDatetime t) action_ref w)))) <->
  In x (executions (store w)) /\
  forall e, In e (candidates t action_ref w) ->
            execution_delete_rejected (store w) (id e) = false -> id x <> id e.
Proof.
  rewrite purge_executions_run. cbv zeta. simpl snd.
  change (store (add_log ?r ?w')) with (store w').
  rewrite for_each_executions. simpl store. tauto.
Qed.

Lemma liveactions_after_run (t : Z) (action_ref : PyVal) (w : World) (l : LiveActionDB) :
  In l (liveactions (store (snd (purge_executions (PyDatetime t) action_ref w)))) <->
  In l (liveactions (store w)) /\
  forall e, In e (candidates t action_ref w) -> references e l ->
            execution_delete_rejected (store w) (id e) = true \/
            liveaction_delete_rejected (store w) (la_id l) = true.
Proof.
  rewrite purge_executions_run. cbv zeta. simpl snd.
  change (store (add_log ?r ?w')) with (store w').
  rewrite for_each_liveactions. simpl store. tauto.
Qed.

(** X1: the executions stored after a run with a [datetime] cutoff are
    those stored before it, other than the ones that share their id with a
    candidate whose delete the store accepted. *)
Theorem run_executions_after (t : Z) (action_ref : PyVal) (w : World) (x : ActionExecutionDB) :
  In x (executions (store (snd (purge_executions (PyDatetime t) action_ref w)))) <->
  In x (executions (store w)) /\
  forall e, In e (candidates t action_ref w) ->
            execution_delete_rejected (store w) (id e) = false -> id x <> id e.
Proof.
  rewrite purge_executions_run. cbv zeta. simpl snd.
  change (store (add_log ?r ?w')) with (store w').
  rewrite for_each_executions. simpl store.
  split; intros [Hin Hes]; (split; [exact Hin | exact Hes]).
Qed.

(** X2: the live actions stored after a run with a [datetime] cutoff are
    those stored before it, other than the ones a candidate references by a
    non-empty id when the store accepted both the delete of that candidate
    and the delete of the live action. *)
Theorem run_liveactions_after (t : Z) (action_ref : PyVal) (w : World) (l : LiveActionDB) :
  In l (liveactions (store (snd (purge_executions (PyDatetime t) action_ref w)))) <->
  In l (liveactions (store w)) /\
  forall e, In e (candidates t action_ref w) -> references e l ->
            execution_delete_rejected (store w) (id e) = true \/
            liveaction_delete_rejected (store w) (la_id l) = true.
Proof.
  rewrite purge_executions_run. cbv zeta. simpl snd.
  change (store (add_log ?r ?w')) with (store w').
  rewrite for_each_liveactions. simpl store.
  split; intros [Hin Hes]; (split; [exact Hin | exact Hes]).
Qed.

Lemma NoDup_map_eq {A B : Type} (f : A -> B) (xs : list A) (a b : A) :
  NoDup (map f xs) -> In a xs -> In b xs -> f a = f b -> a = b.
Proof.
  induction xs as [|x xs IH]; simpl; intros Hnd Ha Hb Hf; [contradiction|].
  inversion Hnd as [|y ys Hnotin Hnd']; subst.
  destruct Ha as [<-|Ha], Hb as [<-|Hb].
  - reflexivity.
  - exfalso. apply Hnotin. rewrite Hf. apply in_map. exact Hb.
  - exfalso. apply Hnotin. rewrite <- Hf. apply in_map. exact Ha.
  - apply IH; assumption.
Qed.

(** X3: when the stored executions have distinct ids, an execution whose
    status is in progress is still stored after any run of
    [purge_executions], whatever the timestamp and the action_ref. *)
Theorem in_progress_survives_run (timestamp action_ref : PyVal) (w : World)
    (x : ActionExecutionDB) :
  NoDup (map id (executions (store w))) ->
  In x (executions (store w)) ->
  In (status x) IN_PROGRESS_STATES ->
  In x (executions (store (snd (purge_executions timestamp action_ref w)))).
Proof.
  intros Hnd Hin Hst.
  assert (Hcases : (exists t, timestamp = PyDatetime t) \/
                   (forall t, timestamp <> PyDatetime t)).
  { destruct timestamp; try (right; intros t'; discriminate).
    left. eexists. reflexivity. }
  destruct Hcases as [[t ->]|Hnot].
  2: { destruct (purge_executions_store_not_datetime timestamp action_ref w Hnot) as (Hs & _).
       rewrite Hs. exact Hin. }
  apply executions_after_run. split; [exact Hin|].
  intros e He _ Hid.
  assert (Hsame : x = e).
  { apply candidates_spec in He. destruct He as (He & _).
    apply (NoDup_map_eq id (executions (store w))); assumption. }
  subst e. apply candidates_spec in He. destruct He as (_ & _ & Hdel).
  apply _should_delete_spec in Hdel. destruct Hdel as (Hterm & _).
  apply Hterm. exact Hst.
Qed.

Lemma in_progress_survives_run_witness :
  NoDup (map id (executions (store (module_loaded store_ok)))) /\
  In P3 (executions (store (snd (purge_executions (PyDatetime 1000) PyNone
                                   (module_loaded store_ok))))).
Proof.
  assert (Hnd : NoDup (map id (executions (store (module_loaded store_ok))))).
  { simpl. repeat constructor; simpl; intros H;
      repeat (destruct H as [H|H]; [discriminate H|]); exact H. }
  split; [exact Hnd|].
  apply (in_progress_survives_run (PyDatetime 1000) PyNone (module_loaded store_ok) P3 Hnd).
  - simpl. right. right. left. reflexivity.
  - simpl. left. reflexivity.
Defined.

(** X4: when the store rejects no delete, after a run with a [datetime] cutoff
    no stored execution has the id of a candidate and no stored live action
    is referenced by a candidate. *)
Theorem clean_run_removes_candidates_and_children (t : Z) (action_ref : PyVal) (w : World) :
  (forall i, execution_delete_rejected (store w) i = false) ->
  (forall i, liveaction_delete_rejected (store w) i = false) ->
  let w' := snd (purge_executions (PyDatetime t) action_ref w) in
  forall e, In e (candidates t action_ref w) ->
    (forall x, In x (executions (store w')) -> id x <> id e) /\
    (forall l, In l (liveactions (store w')) -> ~ references e l).
Proof.
  intros Hacc_e Hacc_l w' e He. subst w'. split.
  - intros x Hx. apply executions_after_run in Hx. destruct Hx as [_ Hx].
    apply (Hx e He (Hacc_e (id e))).
  - intros l Hl Href. apply liveactions_after_run in Hl. destruct Hl as [_ Hl].
    destruct (Hl e He Href) as [H|H].
    + rewrite Hacc_e in H. discriminate.
    + rewrite Hacc_l in H. discriminate.
Qed.

Lemma clean_run_removes_candidates_and_children_witness :
  In P1 (candidates 150 PyNone (module_loaded store_ok)) /\
  references P1 C1 /\
  ~ In C1 (liveactions (store (snd (purge_executions (PyDatetime 150) PyNone
                                      (module_loaded store_ok))))).
Proof.
  assert (Hc : In P1 (candidates 150 PyNone (module_loaded store_ok))).
  { vm_compute. left. reflexivity. }
  assert (Hr : references P1 C1).
  { split; [reflexivity | discriminate]. }
  split; [exact Hc|]. split; [exact Hr|].
  intros Hin.
  apply (proj2 (clean_run_removes_candidates_and_children 150 PyNone (module_loaded store_ok)
                  (fun _ => eq_refl) (fun _ => eq_refl) P1 Hc) C1 Hin Hr).
Defined.

(** X5: when the child of a candidate is found and the store accepts both
    deletes, the step removes the execution and the live action, logs
    nothing, calls [LiveAction.delete] once and adds one to
    [DELETED_COUNT]. *)
Theorem step_fully_deleted (e : ActionExecutionDB) (w : World) (l : LiveActionDB) :
  resolved_child e (store w) = Some l ->
  execution_delete_rejected (store w) (id e) = false ->
  liveaction_delete_rejected (store w) (la_id l) = false ->
  let w' := snd (_purge_models e w) in
  LOG w' = LOG w /\
  DELETED_COUNT w' = DELETED_COUNT w + 1 /\
  (forall x, In x (executions (store w')) <-> In x (executions (store w)) /\ id x <> id e) /\
  (forall y, In y (liveactions (store w')) <-> In y (liveactions (store w)) /\ la_id y <> la_id l) /\
  liveaction_deletes (calls w') = liveaction_deletes (calls w) ++ [la_id l].
Proof.
  intros Hchild Hparent Hrej. cbv zeta.
  rewrite _purge_models_count, Hchild.
  assert (Hex : forall x, In x (executions (store (snd (_purge_models e w)))) <->
                          In x (executions (store w)) /\ id x <> id e).
  { intros x. rewrite _purge_models_executions, Hparent. apply removed_by_id. }
  revert Hex Hchild Hparent Hrej.
  step_cases; intros Hex Hchild Hparent Hrej;
    injection Hchild as <-; try congruence.
  rewrite !liveaction_deletes_app. simpl. rewrite !app_nil_r.
  repeat (split; [reflexivity || exact Hex|]).
  split; [|reflexivity].
  intros y. apply removed_liveaction_by_id.
Qed.

Lemma step_fully_deleted_witness :
  let w' := snd (_purge_models P1 (module_loaded store_ok)) in
  LOG w' = [] /\ DELETED_COUNT w' = 1 /\ liveaction_deletes (calls w') = ["c1"].
Proof.
  destruct (step_fully_deleted P1 (module_loaded store_ok) C1 eq_refl eq_refl eq_refl)
    as (Hlog & Hcount & _ & _ & Hcalls).
  split; [exact Hlog|]. split; [exact Hcount | exact Hcalls].
Defined.

(** X6: when the embedded child id is not empty but no live action has it, the
    step logs the failed lookup and nothing about an invalid id, still
    attempts the delete of the execution (which is gone afterwards unless
    the store rejects it), touches no live action and leaves
    [DELETED_COUNT] as it was. *)
Theorem step_dangling_child_id (e : ActionExecutionDB) (w : World) (i : string) :
  liveaction_id (liveaction e) = Some i ->
  i <> "" ->
  (forall l, In l (liveactions (store w)) -> la_id l <> i) ->
  let w' := snd (_purge_models e w) in
  (exists log,
     LOG w' = LOG w ++ Exception_LiveActionNotFound (Some i) :: log /\
     (log = [] \/ log = [Exception_DeletingExecution e])) /\
  execution_deletes (calls w') = execution_deletes (calls w) ++ [id e] /\
  (execution_delete_rejected (store w) (id e) = false ->
   forall x, In x (executions (store w')) <-> In x (executions (store w)) /\ id x <> id e) /\
  liveaction_deletes (calls w') = liveaction_deletes (calls w) /\
  liveactions (store w') = liveactions (store w) /\
  DELETED_COUNT w' = DELETED_COUNT w.
Proof.
  intros Hid Hne Hnone. cbv zeta.
  assert (Hfind : find (fun l => (la_id l =? i)%string) (liveactions (store w)) = None).
  { destruct (find _ _) as [l|] eqn:Hf; [|reflexivity].
    destruct (find_some _ _ Hf) as [Hin Heq]. apply String.eqb_eq in Heq.
    exfalso. apply (Hnone l Hin Heq). }
  assert (Hres : resolved_child e (store w) = None).
  { unfold resolved_child. rewrite Hid.
    destruct (String.eqb_spec i ""); [contradiction | exact Hfind]. }
  rewrite _purge_models_count, Hres, Z.add_0_r.
  rewrite _purge_models_attempts.
  assert (Hex : execution_delete_rejected (store w) (id e) = false ->
                forall x, In x (executions (store (snd (_purge_models e w)))) <->
                          In x (executions (store w)) /\ id x <> id e).
  { intros Hacc x. rewrite _purge_models_executions, Hacc. apply removed_by_id. }
  apply String.eqb_neq in Hne.
  revert Hex Hid Hfind. clear Hres.
  step_cases; intros Hex Hid' Hfind';
    injection Hid' as <-; try congruence;
    rewrite ?liveaction_deletes_app; simpl; rewrite ?app_nil_r, <- ?app_assoc; simpl.
  - split; [eexists; split; [reflexivity | right; reflexivity]|].
    repeat (split; [reflexivity || exact Hex|]). reflexivity.
  - split; [eexists; split; [reflexivity | left; reflexivity]|].
    repeat (split; [reflexivity || exact Hex|]). reflexivity.
Qed.

Lemma step_dangling_child_id_witness :
  let w := module_loaded store_ok in
  let w' := snd (_purge_models P5 w) in
  LOG w' = [Exception_LiveActionNotFound (Some "gone")] /\
  liveactions (store w') = [C1] /\
  DELETED_COUNT w' = 0.
Proof.
  assert (Hnone : forall l, In l (liveactions (store (module_loaded store_ok))) ->
                            la_id l <> "gone").
  { simpl. intros l [<-|[]]. discriminate. }
  assert (Hne : "gone" <> "") by discriminate.
  destruct (step_dangling_child_id P5 (module_loaded store_ok) "gone"
              eq_refl Hne Hnone) as (_ & _ & _ & _ & Hlive & Hcount).
  split; [reflexivity|]. split; [exact Hlive | exact Hcount].
Defined.

Lemma reported_app (xs ys : list LogRecord) :
  reported (xs ++ ys) = reported xs ++ reported ys.
Proof.
  induction xs as [|x xs IH]; simpl; [reflexivity|].
  destruct x; simpl; rewrite ?IH; reflexivity.
Qed.

Lemma _purge_models_reported (e : ActionExecutionDB) (w : World) :
  reported (LOG (snd (_purge_models e w))) = reported (LOG w).
Proof.
  step_cases; rewrite ?reported_app; simpl; rewrite ?app_nil_r; reflexivity.
Qed.

Lemma for_each_reported (es : list ActionExecutionDB) (w : World) :
  reported (LOG (snd (for_each es _purge_models w))) = reported (LOG w).
Proof.
  revert w. induction es as [|e es IH]; intros w.
  - reflexivity.
  - rewrite for_each_cons, IH. apply _purge_models_reported.
Qed.

Lemma for_each_count_bounds (es : list ActionExecutionDB) (w : World) :
  DELETED_COUNT w <= DELETED_COUNT (snd (for_each es _purge_models w))
  <= DELETED_COUNT w + Z.of_nat (List.length es).
Proof.
  revert w. induction es as [|e es IH]; intros w.
  - simpl. lia.
  - rewrite for_each_cons. specialize (IH (snd (_purge_models e w))).
    rewrite _purge_models_count in IH.
    change (List.length (e :: es)) with (S (List.length es)).
    destruct (resolved_child e (store w)); lia.
Qed.

(** X8: the count a run adds to [DELETED_COUNT] is at least zero and at most
    the number of candidates the run selected. *)
Theorem run_count_bounds (t : Z) (action_ref : PyVal) (w : World) :
  let w' := snd (purge_executions (PyDatetime t) action_ref w) in
  DELETED_COUNT w <= DELETED_COUNT w' <=
  DELETED_COUNT w + Z.of_nat (List.length (candidates t action_ref w)).
Proof.
  cbv zeta. rewrite purge_executions_run. cbv zeta. simpl snd.
  change (DELETED_COUNT (add_log ?r ?w')) with (DELETED_COUNT w').
  match goal with
  | |- context [for_each ?es _purge_models ?w1] =>
      pose proof (for_each_count_bounds es w1) as H
  end.
  simpl in H. exact H.
Qed.

(** X9: a timestamp that is truthy but is not a [datetime] (a string, say)
    makes [purge_executions] raise [AttributeError] before it logs or
    touches the store. *)
Theorem purge_executions_rejects_non_datetime (timestamp action_ref : PyVal) (w : World) :
  truthy timestamp = true ->
  (forall t, timestamp <> PyDatetime t) ->
  purge_executions timestamp action_ref w = (Raise AttributeError, w).
Proof.
  intros Htrue Hnot. unfold purge_executions. rewrite Htrue. simpl.
  destruct timestamp as [|b|n|s|t]; try reflexivity.
  exfalso. apply (Hnot t). reflexivity.
Qed.

Lemma purge_executions_rejects_non_datetime_witness :
  purge_executions (PyStr "2015-03-13T19:01:27.255542Z") PyNone (module_loaded store_ok) =
  (Raise AttributeError, module_loaded store_ok).
Proof.
  apply (purge_executions_rejects_non_datetime (PyStr "2015-03-13T19:01:27.255542Z") PyNone
           (module_loaded store_ok) eq_refl).
  intros t. discriminate.
Defined.

(** X10: raising the cutoff never drops a candidate: what a run selects at [t]
    it also selects at any later [t']. *)
Theorem candidates_monotone_in_cutoff (t t' : Z) (action_ref : PyVal) (w : World)
    (e : ActionExecutionDB) :
  t <= t' ->
  In e (candidates t action_ref w) ->
  In e (candidates t' action_ref w).
Proof.
  intros Hle. rewrite !candidates_spec, !_should_delete_spec.
  intros (Hin & (x & Hx & Hlt) & Hterm & Hstart & Href).
  split; [exact Hin|]. split; [exists x; split; [exact Hx | lia]|].
  split; [exact Hterm|]. split; [lia | exact Href].
Qed.

Lemma candidates_monotone_in_cutoff_witness :
  150 <= 1000 /\
  In P1 (candidates 150 PyNone (module_loaded store_ok)) /\
  In P1 (candidates 1000 PyNone (module_loaded store_ok)).
Proof.
  assert (Hle : 150 <= 1000) by lia.
  assert (Hin : In P1 (candidates 150 PyNone (module_loaded store_ok))).
  { vm_compute. left. reflexivity. }
  split; [exact Hle|]. split; [exact Hin|].
  apply (candidates_monotone_in_cutoff 150 1000 PyNone (module_loaded store_ok) P1 Hle Hin).
Defined.

(** X11: an action_ref only narrows the selection: every candidate of a run
    with some action_ref is a candidate of the run with the same cutoff and
    no action_ref. *)
Theorem candidates_narrowed_by_action_ref (t : Z) (action_ref : PyVal) (w : World)
    (e : ActionExecutionDB) :
  In e (candidates t action_ref w) ->
  In e (candidates t PyNone w).
Proof.
  rewrite !candidates_spec, !_should_delete_spec.
  intros (Hin & Hend & Hterm & Hstart & _).
  repeat (split; [assumption|]).
  intros H. discriminate H.
Qed.

Lemma candidates_narrowed_by_action_ref_witness :
  In P2 (candidates 150 (PyStr "core.local") (module_loaded store_ok)) /\
  ~ In P1 (candidates 150 (PyStr "core.local") (module_loaded store_ok)) /\
  In P2 (candidates 150 PyNone (module_loaded store_ok)).
Proof.
  assert (Hin : In P2 (candidates 150 (PyStr "core.local") (module_loaded store_ok))).
  { vm_compute. left. reflexivity. }
  split; [exact Hin|]. split.
  - vm_compute. intros [H|[]]. discriminate H.
  - apply (candidates_narrowed_by_action_ref 150 (PyStr "core.local")
             (module_loaded store_ok) P2 Hin).
Defined.

(** X13: when the configured timestamp is missing, empty or not in the format
    [strptime] expects, [main] ends with a non-zero exit status without
    having queried or deleted anything and without calling
    [common_teardown]; for a timestamp in the wrong format the
    [ValueError] of [strptime] escapes [main]. *)
Theorem main_aborts_without_teardown (strptime : string -> option Z) (CONF : Config)
    (w : World) :
  truthy (CONF_value (CONF_timestamp CONF)) = false \/
  (exists s, CONF_timestamp CONF = Some s /\ strptime s = None) ->
  let r := main strptime CONF w in
  exit_status (fst r) <> 0 /\
  store (snd r) = store w /\
  calls (snd r) = calls w ++ [Call_common_setup] /\
  ((exists s, CONF_timestamp CONF = Some s /\ s <> "" /\ strptime s = None) ->
   fst r = Raise ValueError).
Proof.
  intros Hcase. cbv zeta. unfold main.
  destruct (truthy (CONF_value (CONF_timestamp CONF))) eqn:Htruthy; simpl.
  - destruct Hcase as [Hfalse|(s & Hs & Hparse)]; [discriminate|].
    rewrite Hs, Hparse. simpl.
    repeat split; try reflexivity; try discriminate.
  - repeat split; try reflexivity; try discriminate.
    intros (s & Hs & Hne & _). rewrite Hs in Htruthy. simpl in Htruthy.
    apply String.eqb_neq in Hne. rewrite Hne in Htruthy. discriminate.
Qed.

Lemma main_aborts_without_teardown_witness :
  let CONF := {| CONF_timestamp := Some "yesterday"; CONF_action_ref := "" |} in
  let r := main (fun _ => None) CONF (module_loaded store_ok) in
  fst r = Raise ValueError /\ calls (snd r) = [Call_common_setup].
Proof.
  assert (Hbad : exists s,
             CONF_timestamp {| CONF_timestamp := Some "yesterday"; CONF_action_ref := "" |} = Some s /\
             (fun _ : string => @None Z) s = None).
  { exists "yesterday". split; reflexivity. }
  destruct (main_aborts_without_teardown (fun _ => None)
              {| CONF_timestamp := Some "yesterday"; CONF_action_ref := "" |}
              (module_loaded store_ok) (or_intror Hbad)) as (_ & _ & Hcalls & Hraise).
  split; [|exact Hcalls].
  apply Hraise. exists "yesterday". repeat split. discriminate.
Defined.

(* ================================================================= *)
(** * Registration of the command-line options *)

Section CliOptsFacts.

Variable Opt : Type.
Variable Conf : Type.
Variable Err : Type.
Variable register_cli_opt : Opt -> Conf -> option Err * Conf.

(** X14: with [ignore_errors=True], [_do_register_cli_opts] never raises,
    whatever [register_cli_opt] raises: it goes through every option in
    order and leaves the configuration those calls leave. *)
Theorem register_ignoring_errors_never_raises (opts : list Opt) (conf : Conf) :
  _do_register_cli_opts register_cli_opt opts true conf = (None, register_each register_cli_opt opts conf).
Proof.
  unfold register_each. revert conf. induction opts as [|opt opts IH]; intros conf; simpl.
  - reflexivity.
  - destruct (register_cli_opt opt conf) as [[e|] conf']; simpl; apply IH.
Qed.

Lemma register_strict_app (pre post : list Opt) (conf conf1 : Conf) :
  _do_register_cli_opts register_cli_opt pre false conf = (None, conf1) ->
  _do_register_cli_opts register_cli_opt (pre ++ post) false conf = _do_register_cli_opts register_cli_opt post false conf1.
Proof.
  revert conf. induction pre as [|opt pre IH]; intros conf; simpl.
  - intros H. injection H as <-. reflexivity.
  - destruct (register_cli_opt opt conf) as [[e|] conf']; simpl.
    + discriminate.
    + apply IH.
Qed.

(** X15: with [ignore_errors=False], the first option whose registration raises
    ends the loop: the exception propagates, the options before it are
    registered and the options after it are not attempted. *)
Theorem register_stops_at_first_error (pre post : list Opt) (opt : Opt)
    (conf conf1 conf2 : Conf) (e : Err) :
  _do_register_cli_opts register_cli_opt pre false conf = (None, conf1) ->
  register_cli_opt opt conf1 = (Some e, conf2) ->
  _do_register_cli_opts register_cli_opt (pre ++ opt :: post) false conf = (Some e, conf2).
Proof.
  intros Hpre Hopt. rewrite (register_strict_app pre (opt :: post) conf conf1 Hpre).
  simpl. rewrite Hopt. reflexivity.
Qed.

(** X16: when [_do_register_cli_opts] with [ignore_errors=False] returns
    normally, every option has been registered: it leaves the
    configuration that registering with [ignore_errors=True] leaves. *)
Theorem register_strict_ok (opts : list Opt) (conf : Conf) :
  fst (_do_register_cli_opts register_cli_opt opts false conf) = None ->
  _do_register_cli_opts register_cli_opt opts false conf = (None, register_each register_cli_opt opts conf).
Proof.
  unfold register_each. revert conf. induction opts as [|opt opts IH]; intros conf; simpl.
  - reflexivity.
  - destruct (register_cli_opt opt conf) as [[e|] conf']; simpl.
    + discriminate.
    + apply IH.
Qed.

End CliOptsFacts.

(** Registering the two options where "action-ref" is already taken:
    "timestamp" is registered, then the refusal of "action-ref" escapes. *)
Lemma register_stops_at_first_error_witness :
  _register_cli_opts register_once ["action-ref"] =
  (Some "action-ref", ["action-ref"; "timestamp"]).
Proof.
  apply (register_stops_at_first_error StrOpt (list string) string register_once
           [timestamp_opt] [] action_ref_opt
           ["action-ref"] ["action-ref"; "timestamp"] ["action-ref"; "timestamp"]
           "action-ref"); reflexivity.
Defined.

(** Registering the two options in an empty registry. *)
Lemma register_strict_ok_witness :
  _register_cli_opts (Err := string) register_once [] = (None, ["timestamp"; "action-ref"]).
Proof.
  apply (register_strict_ok StrOpt (list string) string register_once cli_opts []).
  reflexivity.
Defined.

(* ================================================================= *)
(** * The role definition file format *)

Module RbacFacts.
Import Rbac.

Section ValidateFacts.

Variable Ext : Type.
Variable Cleaned : Type.
Variable BaseAPI_validate : RoleDefinitionFileFormatAPI -> Ext + Cleaned.
Variable parse_uid : string -> Ext + (string * string).
Variable get_valid_permissions_for_resource_type : string -> Ext + list string.
Variable GLOBAL_PERMISSION_TYPES : list string.

Lemma for_raise_None {A E : Type} (xs : list A) (body : A -> option E) :
  for_raise xs body = None <-> forall x, In x xs -> body x = None.
Proof.
  induction xs as [|x xs IH]; simpl.
  - split; [intros _ y [] | reflexivity].
  - destruct (body x) as [e|] eqn:Hx.
    + split; [discriminate|]. intros H. specialize (H x (or_introl eq_refl)). congruence.
    + rewrite IH. split.
      * intros H y [<-|Hy]; [exact Hx | apply H; exact Hy].
      * intros H y Hy. apply H. right. exact Hy.
Qed.

Lemma for_raise_app_first {A E : Type} (pre post : list A) (x : A) (body : A -> option E) (e : E) :
  (forall y, In y pre -> body y = None) ->
  body x = Some e ->
  for_raise (pre ++ x :: post) body = Some e.
Proof.
  intros Hpre Hx. induction pre as [|y pre IH]; simpl.
  - rewrite Hx. reflexivity.
  - rewrite (Hpre y (or_introl eq_refl)). apply IH.
    intros z Hz. apply Hpre. right. exact Hz.
Qed.

Lemma check_types_None (types valid : list string) (err : string -> Error Ext) :
  for_raise types (fun t => if negb (py_in t valid) then Some (err t) else None) = None <->
  forall t, In t types -> In t valid.
Proof.
  rewrite for_raise_None. split; intros H t Ht; specialize (H t Ht).
  - destruct (py_in t valid) eqn:Hin; [apply py_in_In; exact Hin | discriminate].
  - apply py_in_In in H. rewrite H. reflexivity.
Qed.

Lemma validate_grant_None (g : PermissionGrant) :
  validate_grant parse_uid get_valid_permissions_for_resource_type
    GLOBAL_PERMISSION_TYPES g = None <->
  grant_ok parse_uid get_valid_permissions_for_resource_type GLOBAL_PERMISSION_TYPES g.
Proof.
  unfold validate_grant, grant_ok, uid_truthy.
  destruct (resource_uid g) as [u|]; [|apply check_types_None].
  destruct (u =? "")%string; simpl; [apply check_types_None|].
  destruct (parse_uid u) as [e|[resource_type reference]].
  - split; [discriminate|]. intros (rt & rf & valid & H & _). discriminate.
  - destruct (get_valid_permissions_for_resource_type resource_type) as [e|valid] eqn:Hvalid.
    + split; [discriminate|]. intros (rt & rf & v & H & Hv & _).
      injection H as <- <-. congruence.
    + rewrite check_types_None. split.
      * intros H. exists resource_type, reference, valid. auto.
      * intros (rt & rf & v & H & Hv & Hall). injection H as <- <-.
        assert (v = valid) by congruence. subst v. exact Hall.
Qed.

(** X17: [validate] returns the cleaned value of the schema validation exactly
    when that validation passes and every permission grant is acceptable:
    with a non-empty resource uid, the uid parses and each permission type
    is valid for its resource type; with no or an empty resource uid, each
    permission type is a global permission type. *)
Theorem validate_accepts_iff (self : RoleDefinitionFileFormatAPI) (cleaned : Cleaned) :
  validate BaseAPI_validate parse_uid get_valid_permissions_for_resource_type
    GLOBAL_PERMISSION_TYPES self = inr cleaned <->
  BaseAPI_validate self = inr cleaned /\
  forall g, In g (match permission_grants self with Some l => l | None => [] end) ->
            grant_ok parse_uid get_valid_permissions_for_resource_type
              GLOBAL_PERMISSION_TYPES g.
Proof.
  unfold validate.
  destruct (BaseAPI_validate self) as [e|c].
  - split; [discriminate | intros [H _]; discriminate].
  - destruct (for_raise _ _) as [e|] eqn:Hloop.
    + split; [discriminate|]. intros [_ Hall].
      assert (Hnone : for_raise (match permission_grants self with Some l => l | None => [] end)
                        (validate_grant parse_uid get_valid_permissions_for_resource_type
                           GLOBAL_PERMISSION_TYPES) = None).
      { apply for_raise_None. intros g Hg. apply validate_grant_None. apply Hall. exact Hg. }
      congruence.
    + pose proof (proj1 (for_raise_None _ _) Hloop) as Hall. split.
      * intros H. injection H as <-. split; [reflexivity|].
        intros g Hg. apply validate_grant_None. apply Hall. exact Hg.
      * intros [H _]. injection H as <-. reflexivity.
Qed.

(** X18: [validate] raises for the first grant that is not acceptable: when the
    schema validation passes and the grants before [g] are acceptable,
    what the check of [g] raises is what [validate] raises, whatever
    follows [g]. *)
Theorem validate_first_bad_grant (self : RoleDefinitionFileFormatAPI) (cleaned : Cleaned)
    (pre post : list PermissionGrant) (g : PermissionGrant) (e : Error Ext) :
  BaseAPI_validate self = inr cleaned ->
  permission_grants self = Some (pre ++ g :: post) ->
  (forall g', In g' pre ->
     grant_ok parse_uid get_valid_permissions_for_resource_type GLOBAL_PERMISSION_TYPES g') ->
  validate_grant parse_uid get_valid_permissions_for_resource_type
    GLOBAL_PERMISSION_TYPES g = Some e ->
  validate BaseAPI_validate parse_uid get_valid_permissions_for_resource_type
    GLOBAL_PERMISSION_TYPES self = inl e.
Proof.
  intros Hschema Hgrants Hpre Hg. unfold validate. rewrite Hschema, Hgrants.
  rewrite (for_raise_app_first pre post g _ e); [reflexivity | | exact Hg].
  intros g' Hg'. apply validate_grant_None. apply Hpre. exact Hg'.
Qed.

End ValidateFacts.

(** A role whose second grant asks for a rule permission on an action. *)
Lemma validate_first_bad_grant_witness :
  let good := {| resource_uid := Some "action:core.local";
                 permission_types := Some ["action_view"] |} in
  let bad := {| resource_uid := Some "action:core.local";
                permission_types := Some ["action_execute"; "rule_view"] |} in
  let later := {| resource_uid := None; permission_types := Some ["no_such_type"] |} in
  validate example_schema example_parse_uid example_valid_permissions
    example_global (example_role [good; bad; later]) =
  inl (Invalid_for_resource_type "rule_view" "action").
Proof.
  cbv zeta.
  apply (validate_first_bad_grant unit string example_schema example_parse_uid
           example_valid_permissions example_global
           (example_role [ {| resource_uid := Some "action:core.local";
                              permission_types := Some ["action_view"] |};
                           {| resource_uid := Some "action:core.local";
                              permission_types := Some ["action_execute"; "rule_view"] |};
                           {| resource_uid := None;
                              permission_types := Some ["no_such_type"] |} ])
           "observer"
           [ {| resource_uid := Some "action:core.local";
                permission_types := Some ["action_view"] |} ]
           [ {| resource_uid := None; permission_types := Some ["no_such_type"] |} ]
           {| resource_uid := Some "action:core.local";
              permission_types := Some ["action_execute"; "rule_view"] |}).
  - reflexivity.
  - reflexivity.
  - intros g' [<-|[]]. simpl.
    exists "action", "core.local", ["action_view"; "action_execute"].
    split; [reflexivity|]. split; [reflexivity|].
    intros t [<-|[]]. simpl. left. reflexivity.
  - reflexivity.
Defined.

End RbacFacts.

(* ================================================================= *)
(** * The script over collaborators that can fail *)

Lemma script_purge_executions_run (query : Z -> M (list ActionExecutionDB)) (t : Z)
    (action_ref : PyVal) (w w1 : World) (executions : list ActionExecutionDB) :
  query t (add_log (Info_PurgingOlderThan t) w) = (Ok executions, w1) ->
  Script.purge_executions query (PyDatetime t) action_ref w =
  let es := filter (fun e => _should_delete e (default_action_ref action_ref) t) executions in
  let w2 := snd (for_each es _purge_models
                   (add_log (Info_TotalToDelete (Z.of_nat (List.length es))) w1)) in
  (Ok tt, add_log (Info_TotalDeleted (DELETED_COUNT w2)) w2).
Proof.
  intros Hq. unfold Script.purge_executions, Script.selectCandidates, isotime_parse. simpl.
  unfold bind at 1. simpl. unfold bind at 1. unfold LOG_info at 1, modify at 1.
  unfold bind at 1. unfold bind at 1. rewrite Hq. unfold ret at 1.
  unfold bind at 1. unfold LOG_info at 1, modify at 1.
  unfold bind at 1.
  match goal with
  | |- context [for_each ?es _purge_models ?w1] =>
      pose proof (for_each_returns es w1) as H;
      destruct (for_each es _purge_models w1) as [r w2] eqn:Hrun
  end.
  simpl in H. subst r. reflexivity.
Qed.

Lemma script_purge_executions_query_raises (query : Z -> M (list ActionExecutionDB)) (t : Z)
    (action_ref : PyVal) (w w1 : World) (e : Exc) :
  query t (add_log (Info_PurgingOlderThan t) w) = (Raise e, w1) ->
  Script.purge_executions query (PyDatetime t) action_ref w = (Raise e, w1).
Proof.
  intros Hq. unfold Script.purge_executions, Script.selectCandidates, isotime_parse. simpl.
  unfold bind at 1. simpl. unfold bind at 1. unfold LOG_info at 1, modify at 1.
  unfold bind at 1. unfold bind at 1. rewrite Hq. reflexivity.
Qed.

(** The script above is the general one at a store that answers the query,
    a registration that accepts the options and a setup and teardown that
    only happen. *)
Lemma purge_executions_is_script (timestamp action_ref : PyVal) (w : World) :
  Script.purge_executions ActionExecution.query timestamp action_ref w =
  purge_executions timestamp action_ref w.
Proof. reflexivity. Qed.

Lemma main_is_script (strptime : string -> option Z) (CONF : Config) (w : World) :
  Script.main register_accepting (modify (add_call Call_common_setup))
    (modify (add_call Call_common_teardown)) ActionExecution.query strptime CONF w =
  main strptime CONF w.
Proof. reflexivity. Qed.

(** X7: when the initial query returns normally, a run with a [datetime]
    cutoff returns normally; after the query it calls
    [ActionExecution.delete] for the queried executions that
    [_should_delete] accepts, once each and in order, and for nothing else;
    the two summary lines it logs give their number and the final
    [DELETED_COUNT]. *)
Theorem run_summary (query : Z -> M (list ActionExecutionDB)) (t : Z) (action_ref : PyVal)
    (w w1 : World) (executions : list ActionExecutionDB) :
  query t (add_log (Info_PurgingOlderThan t) w) = (Ok executions, w1) ->
  let es := filter (fun e => _should_delete e (default_action_ref action_ref) t) executions in
  let w' := snd (Script.purge_executions query (PyDatetime t) action_ref w) in
  fst (Script.purge_executions query (PyDatetime t) action_ref w) = Ok tt /\
  execution_deletes (calls w') = execution_deletes (calls w1) ++ map id es /\
  reported (LOG w') =
    reported (LOG w1) ++ [("to delete", Z.of_nat (List.length es)); ("deleted", DELETED_COUNT w')].
Proof.
  intros Hq. cbv zeta.
  rewrite (script_purge_executions_run query t action_ref w w1 executions Hq).
  cbv zeta. simpl fst. simpl snd.
  split; [reflexivity|]. split.
  - change (calls (add_log ?r ?w')) with (calls w').
    rewrite for_each_attempts. reflexivity.
  - change (LOG (add_log ?r ?w')) with (LOG w' ++ [r]).
    rewrite reported_app, for_each_reported. simpl.
    rewrite reported_app. simpl. rewrite <- app_assoc. reflexivity.
Qed.

(** X7 at a store that answers the query: P1 and P2 are attempted. *)
Lemma run_summary_witness :
  let w := module_loaded store_ok in
  let w' := snd (Script.purge_executions ActionExecution.query (PyDatetime 150) PyNone w) in
  fst (Script.purge_executions ActionExecution.query (PyDatetime 150) PyNone w) = Ok tt /\
  execution_deletes (calls w') = ["p1"; "p2"] /\
  reported (LOG w') = [("to delete", 2); ("deleted", 1)].
Proof.
  destruct (run_summary ActionExecution.query 150 PyNone (module_loaded store_ok)
              (add_call (Call_ActionExecution_query 150)
                 (add_log (Info_PurgingOlderThan 150) (module_loaded store_ok)))
              [P1; P2; P3] eq_refl) as (Hret & Hcalls & Hlog).
  split; [exact Hret|]. split; [exact Hcalls | exact Hlog].
Defined.

(** X12: when the registration of the options and [common_setup] return
    normally, the configured timestamp is not empty and [strptime] accepts
    it, the query of the run returns normally and [common_teardown]
    returns normally, [main] returns [None] after the teardown that follows
    [purge_executions]: the process exits with status 0. *)
Theorem main_runs_purge_then_teardown
    (register_cli_opt : StrOpt -> World -> option Exc * World)
    (common_setup common_teardown : M unit) (query : Z -> M (list ActionExecutionDB))
    (strptime : string -> option Z) (CONF : Config)
    (w w1 w2 w3 w4 : World) (s : string) (t : Z) (executions : list ActionExecutionDB) :
  _register_cli_opts register_cli_opt w = (None, w1) ->
  common_setup w1 = (Ok tt, w2) ->
  CONF_timestamp CONF = Some s ->
  s <> "" ->
  strptime s = Some t ->
  query t (add_log (Info_PurgingOlderThan t) w2) = (Ok executions, w3) ->
  common_teardown
    (snd (Script.purge_executions query (PyDatetime t) (PyStr (CONF_action_ref CONF)) w2)) =
    (Ok tt, w4) ->
  Script.main register_cli_opt common_setup common_teardown query strptime CONF w =
    (Ok None, w4) /\
  exit_status
    (fst (Script.main register_cli_opt common_setup common_teardown query strptime CONF w)) = 0.
Proof.
  intros Hreg Hsetup Hts Hne Hparse Hq Hdown.
  assert (Hmain : Script.main register_cli_opt common_setup common_teardown query strptime
                    CONF w = (Ok None, w4)).
  { unfold Script.main.
    unfold bind at 1. unfold Script.register_cli_opts. rewrite Hreg.
    unfold bind at 1. rewrite Hsetup.
    rewrite Hts. simpl.
    apply String.eqb_neq in Hne. rewrite Hne. simpl. rewrite Hparse.
    unfold bind at 1. unfold ret at 1. unfold bind at 1.
    pose proof (script_purge_executions_run query t (PyStr (CONF_action_ref CONF))
                  w2 w3 executions Hq) as Hrun.
    cbv zeta in Hrun. rewrite Hrun in Hdown |- *. simpl snd in Hdown.
    unfold bind at 1. rewrite Hdown. reflexivity. }
  split; [exact Hmain|]. rewrite Hmain. reflexivity.
Qed.

(** X12 with an accepting registration and a store that answers. *)
Lemma main_runs_purge_then_teardown_witness :
  let CONF := {| CONF_timestamp := Some "2015-03-13T19:01:27.255542Z"; CONF_action_ref := "" |} in
  let r := Script.main register_accepting (modify (add_call Call_common_setup))
             (modify (add_call Call_common_teardown)) ActionExecution.query
             (fun _ => Some 150) CONF (module_loaded store_ok) in
  exit_status (fst r) = 0 /\
  execution_deletes (calls (snd r)) = ["p1"; "p2"] /\
  filter is_teardown (calls (snd r)) = [Call_common_teardown].
Proof.
  assert (Hne : "2015-03-13T19:01:27.255542Z" <> "") by discriminate.
  destruct (main_runs_purge_then_teardown register_accepting
              (modify (add_call Call_common_setup)) (modify (add_call Call_common_teardown))
              ActionExecution.query (fun _ => Some 150)
              {| CONF_timestamp := Some "2015-03-13T19:01:27.255542Z"; CONF_action_ref := "" |}
              (module_loaded store_ok) (module_loaded store_ok)
              (add_call Call_common_setup (module_loaded store_ok))
              (add_call (Call_ActionExecution_query 150)
                 (add_log (Info_PurgingOlderThan 150)
                    (add_call Call_common_setup (module_loaded store_ok))))
              _ "2015-03-13T19:01:27.255542Z" 150 [P1; P2; P3]
              eq_refl eq_refl eq_refl Hne eq_refl eq_refl eq_refl)
    as [Hmain Hexit].
  cbv zeta. split; [exact Hexit|]. rewrite Hmain. split; reflexivity.
Defined.

(** X19: a query that raises aborts the run: [purge_executions] ends with
    that exception in the state the query left, so no delete is attempted
    and no summary is logged, and [main] lets the exception escape before
    [common_teardown], with a non-zero exit status. *)
Theorem failing_query_aborts
    (register_cli_opt : StrOpt -> World -> option Exc * World)
    (common_setup common_teardown : M unit) (query : Z -> M (list ActionExecutionDB))
    (strptime : string -> option Z) (CONF : Config)
    (w w1 w2 w3 : World) (s : string) (t : Z) (e : Exc) :
  _register_cli_opts register_cli_opt w = (None, w1) ->
  common_setup w1 = (Ok tt, w2) ->
  CONF_timestamp CONF = Some s ->
  s <> "" ->
  strptime s = Some t ->
  query t (add_log (Info_PurgingOlderThan t) w2) = (Raise e, w3) ->
  Script.purge_executions query (PyDatetime t) (PyStr (CONF_action_ref CONF)) w2 =
    (Raise e, w3) /\
  Script.main register_cli_opt common_setup common_teardown query strptime CONF w =
    (Raise e, w3) /\
  exit_status
    (fst (Script.main register_cli_opt common_setup common_teardown query strptime CONF w)) <> 0.
Proof.
  intros Hreg Hsetup Hts Hne Hparse Hq.
  pose proof (script_purge_executions_query_raises query t (PyStr (CONF_action_ref CONF))
                w2 w3 e Hq) as Hrun.
  assert (Hmain : Script.main register_cli_opt common_setup common_teardown query strptime
                    CONF w = (Raise e, w3)).
  { unfold Script.main.
    unfold bind at 1. unfold Script.register_cli_opts. rewrite Hreg.
    unfold bind at 1. rewrite Hsetup.
    rewrite Hts. simpl.
    apply String.eqb_neq in Hne. rewrite Hne. simpl. rewrite Hparse.
    unfold bind at 1. unfold ret at 1. unfold bind at 1.
    rewrite Hrun. reflexivity. }
  split; [exact Hrun|]. split; [exact Hmain|]. rewrite Hmain. simpl. discriminate.
Qed.

(** X19 at a store that cannot be reached: nothing is deleted, no teardown. *)
Lemma failing_query_aborts_witness :
  let CONF := {| CONF_timestamp := Some "2015-03-13T19:01:27.255542Z"; CONF_action_ref := "" |} in
  let r := Script.main register_accepting (modify (add_call Call_common_setup))
             (modify (add_call Call_common_teardown)) query_unreachable
             (fun _ => Some 150) CONF (module_loaded store_ok) in
  fst r = Raise StoreError /\
  store (snd r) = store_ok /\
  calls (snd r) = [Call_common_setup].
Proof.
  assert (Hne : "2015-03-13T19:01:27.255542Z" <> "") by discriminate.
  destruct (failing_query_aborts register_accepting
              (modify (add_call Call_common_setup)) (modify (add_call Call_common_teardown))
              query_unreachable (fun _ => Some 150)
              {| CONF_timestamp := Some "2015-03-13T19:01:27.255542Z"; CONF_action_ref := "" |}
              (module_loaded store_ok) (module_loaded store_ok)
              (add_call Call_common_setup (module_loaded store_ok))
              (add_log (Info_PurgingOlderThan 150)
                 (add_call Call_common_setup (module_loaded store_ok)))
              "2015-03-13T19:01:27.255542Z" 150 StoreError
              eq_refl eq_refl eq_refl Hne eq_refl eq_refl)
    as (_ & Hmain & _).
  cbv zeta. rewrite Hmain. repeat split; reflexivity.
Defined.
